(** * pastebin-monitor: a shallow embedding of [pastebin_crawler.py]

    The development follows the source file top to bottom: the Python string
    operations the crawler relies on, the exception and state monad in which
    its methods run, the collaborators it talks to (the file system, the HTTP
    client, the console), then [Logger], [Crawler.read_regexes],
    [Crawler.check_paste], [Crawler.save_result], [Crawler.save_last_pastes]
    and the body of the [while True] loop of [Crawler.start].

    Conventions.
    - A Python [str] is a [string]; its characters are the code points
      U+0000 to U+00FF, so that the index unit of a slice is one character.
    - A Python [int] is a [Z]; a [float] is carried by its exact rational
      value, and only its type tag, its sign and its printed trace matter.
    - Mutable attributes of the single [Crawler] instance are fields of one
      [state] record that every method threads; the instance is never copied,
      and no two attributes ever name the same list while one is mutated
      ([new_checked_ids] is rebound to a fresh list right after it is handed
      to [prev_checked_ids]).
    - What the crawler prints, requests and sleeps is appended to a trace. *)

From stdpp Require Import gmap strings list fin_maps pretty.
From Stdlib Require Import Ascii QArith Qround.

Open Scope Z_scope.

(** ** Python strings *)

Module PyStr.

(** [str.isspace] on one character, restricted to U+0000..U+00FF: the
    characters with bidirectional type WS, B or S, or category Zs. *)
Definition isspace (c : ascii) : bool :=
  let n := nat_of_ascii c in
  ((9 <=? n) && (n <=? 13) || (28 <=? n) && (n <=? 32)
   || (n =? 133) || (n =? 160))%nat.

Definition is_empty (s : string) : bool :=
  match s with EmptyString => true | String _ _ => false end.

Fixpoint lstrip (s : string) : string :=
  match s with
  | EmptyString => EmptyString
  | String c r => if isspace c then lstrip r else s
  end.

Fixpoint rstrip (s : string) : string :=
  match s with
  | EmptyString => EmptyString
  | String c r =>
      let r' := rstrip r in
      if isspace c && is_empty r' then EmptyString else String c r'
  end.

(** [s.strip()] *)
Definition strip (s : string) : string := rstrip (lstrip s).

(** [s.split(sep)] for a one-character separator: never empty. *)
Fixpoint split (sep : ascii) (s : string) : list string :=
  match s with
  | EmptyString => [EmptyString]
  | String c r =>
      if Ascii.eqb c sep then EmptyString :: split sep r
      else match split sep r with
           | h :: t => String c h :: t
           | [] => [String c EmptyString]
           end
  end.

(** [sep.join(l)] *)
Fixpoint join (sep : string) (l : list string) : string :=
  match l with
  | [] => EmptyString
  | [x] => x
  | x :: r => x +:+ sep +:+ join sep r
  end.

(** [s.startswith(p)] *)
Definition startswith (p s : string) : bool := String.prefix p s.

(** [s.replace(old, new)] for a one-character [old]. *)
Fixpoint replace (old : ascii) (new : string) (s : string) : string :=
  match s with
  | EmptyString => EmptyString
  | String c r =>
      if Ascii.eqb c old then new +:+ replace old new r
      else String c (replace old new r)
  end.

(** [s[0:n]] *)
Fixpoint take (n : nat) (s : string) : string :=
  match n, s with
  | S k, String c r => String c (take k r)
  | _, _ => EmptyString
  end.

Global Arguments take : simpl never.

(** [sub in s] on strings: substring test. *)
Fixpoint contains (sub s : string) : bool :=
  String.prefix sub s ||
  match s with
  | EmptyString => false
  | String _ r => contains sub r
  end.

Global Arguments contains : simpl never.

(** [f.readlines()] on the text of a file opened in text mode (newlines
    already translated to LF): the lines, each with its terminator. *)
Fixpoint readlines (s : string) : list string :=
  match s with
  | EmptyString => []
  | String c r =>
      if Ascii.eqb c "010"%char then String c EmptyString :: readlines r
      else match readlines r with
           | h :: t => String c h :: t
           | [] => [String c EmptyString]
           end
  end.

(** [c in s] for one character. *)
Fixpoint has_char (c : ascii) (s : string) : bool :=
  match s with
  | EmptyString => false
  | String d r => Ascii.eqb d c || has_char c r
  end.

End PyStr.

(** List slices [l[:-2]] and [l[-2:]]. *)
Definition but_last2 {A} (l : list A) : list A := firstn (length l - 2) l.
Definition last2 {A} (l : list A) : list A := skipn (length l - 2) l.

(** ** Python numbers passed on the command line *)

Inductive pynum :=
| PyInt (z : Z)
| PyFloat (q : Q).

(** [x < 0] *)
Definition pynum_negative (x : pynum) : bool :=
  match x with
  | PyInt z => (z <? 0)%Z
  | PyFloat q => negb (Qle_bool 0 q)
  end.

(** ['{:d}'.format(x)]: the presentation type [d] is refused for a float
    ([ValueError: Unknown format code 'd' for object of type 'float']). *)
Definition format_d (x : pynum) : option string :=
  match x with
  | PyInt z => Some (pretty z)
  | PyFloat _ => None
  end.

(** ** Broken-down local time and [get_timestamp] *)

Record struct_time := {
  tm_year : nat; tm_mon : nat; tm_mday : nat;
  tm_hour : nat; tm_min : nat; tm_sec : nat
}.

Definition digit (n : nat) : ascii := ascii_of_nat (48 + n mod 10).

Global Arguments digit : simpl never.

(** [%m], [%d], [%H], [%M], [%S]: two digits, zero padded. *)
Definition pad2 (n : nat) : string :=
  String (digit (n / 10)) (String (digit n) EmptyString).

(** [%Y] for the years 1000 to 9999. *)
Definition pad4 (n : nat) : string :=
  String (digit (n / 1000)) (String (digit (n / 100)) (pad2 n)).

(** [get_timestamp()]: [time.strftime('%Y/%m/%d %H:%M:%S')] at local time
    [t]. *)
Definition get_timestamp (t : struct_time) : string :=
  pad4 (tm_year t) +:+ "/" +:+ pad2 (tm_mon t) +:+ "/" +:+ pad2 (tm_mday t)
  +:+ " " +:+ pad2 (tm_hour t) +:+ ":" +:+ pad2 (tm_min t) +:+ ":"
  +:+ pad2 (tm_sec t).

(** ** Exceptions, trace events and the file system *)

Inductive exn :=
| KeyboardInterrupt
| SystemExit
| Exception (name : string).

Inductive outcome (A : Type) :=
| Ok (a : A)
| Raise (e : exn).
Arguments Ok {A} a.
Arguments Raise {A} e.

(** The keys of [Logger.shell_mod] that the crawler passes as [color]. *)
Inductive color := NoColor | Cyan | Blue | Yellow | Red.

Inductive event :=
| EvLog (message : string) (is_bold : bool) (c : color) (log_time : bool)
| EvSleep (secs : pynum)
| EvGet (url : string)
| EvGetChar.

(** The part of the [os] layer the crawler uses. Paths are compared as
    strings, which is faithful for paths without empty, [.] or [..]
    components and without links. *)
Record filesystem := {
  fs_dirs : gset string;
  fs_files : gmap string string
}.

Module Os.

(** [os.path.dirname] of a relative path: what precedes the last slash. *)
Fixpoint dirname (p : string) : string :=
  match p with
  | EmptyString => EmptyString
  | String c r =>
      if PyStr.has_char "/" r then String c (dirname r) else EmptyString
  end.

(** The path and its ancestors, outermost first: for [a/b/c], the paths
    [a], [a/b] and [a/b/c]. *)
Fixpoint prefixes_from (acc p : string) : list string :=
  match p with
  | EmptyString => [acc]
  | String c r =>
      if Ascii.eqb c "/" then acc :: prefixes_from (acc +:+ "/") r
      else prefixes_from (acc +:+ String c EmptyString) r
  end.
Definition prefixes (p : string) : list string := prefixes_from EmptyString p.

Definition isdir (fs : filesystem) (p : string) : bool :=
  bool_decide (p ∈ fs_dirs fs).
Definition isfile (fs : filesystem) (p : string) : bool :=
  bool_decide (is_Some (fs_files fs !! p)).

(** The directory a new entry [p] goes into exists (the empty path is the working
    directory). *)
Definition parent_ok (fs : filesystem) (p : string) : bool :=
  PyStr.is_empty (dirname p) || isdir fs (dirname p).

(** [os.makedirs(name)]: [FileExistsError] when [name] exists,
    [NotADirectoryError] when an ancestor is a regular file; otherwise
    [name] and its missing ancestors are created. *)
Definition makedirs (name : string) (fs : filesystem)
  : outcome unit * filesystem :=
  if isdir fs name || isfile fs name then
    (Raise (Exception "FileExistsError"), fs)
  else if existsb (isfile fs) (prefixes name) then
    (Raise (Exception "NotADirectoryError"), fs)
  else
    (Ok tt, {| fs_dirs := list_to_set (prefixes name) ∪ fs_dirs fs;
               fs_files := fs_files fs |}).

(** [open(path, mode)] for writing, [mode] being ['a'] or ['w']: refused
    on a directory and in a missing directory. *)
Definition can_open (fs : filesystem) (path : string) : bool :=
  negb (isdir fs path) && parent_ok fs path.

(** [with open(path, 'a') as f: f.write(data)] *)
Definition append_file (path data : string) (fs : filesystem)
  : outcome unit * filesystem :=
  if can_open fs path then
    (Ok tt, {| fs_dirs := fs_dirs fs;
               fs_files := <[path := default EmptyString (fs_files fs !! path) +:+ data]>
                             (fs_files fs) |})
  else (Raise (Exception "OSError"), fs).

(** [with open(path, mode='w') as f: f.write(data)] *)
Definition write_file (path data : string) (fs : filesystem)
  : outcome unit * filesystem :=
  if can_open fs path then
    (Ok tt, {| fs_dirs := fs_dirs fs;
               fs_files := <[path := data]> (fs_files fs) |})
  else (Raise (Exception "OSError"), fs).

(** [open(path, 'r')] followed by reading the whole text. *)
Definition read_file (path : string) (fs : filesystem) : outcome string :=
  match fs_files fs !! path with
  | Some text => Ok text
  | None => Raise (Exception "OSError")
  end.

Global Arguments makedirs : simpl never.
Global Arguments append_file : simpl never.
Global Arguments write_file : simpl never.
Global Arguments can_open : simpl never.

End Os.

(** ** The crawler's state *)

Record state := {
  regexes : list (list string);
  prev_checked_ids : list string;
  new_checked_ids : list string;
  pastes_for_save : list (string * string);
  verbose : bool;
  fs : filesystem;
  out : list event
}.

Definition set_regexes (v : list (list string)) (s : state) : state :=
  {| regexes := v; prev_checked_ids := prev_checked_ids s;
     new_checked_ids := new_checked_ids s;
     pastes_for_save := pastes_for_save s; verbose := verbose s;
     fs := fs s; out := out s |}.
Definition set_prev_checked_ids (v : list string) (s : state) : state :=
  {| regexes := regexes s; prev_checked_ids := v;
     new_checked_ids := new_checked_ids s;
     pastes_for_save := pastes_for_save s; verbose := verbose s;
     fs := fs s; out := out s |}.
Definition set_new_checked_ids (v : list string) (s : state) : state :=
  {| regexes := regexes s; prev_checked_ids := prev_checked_ids s;
     new_checked_ids := v;
     pastes_for_save := pastes_for_save s; verbose := verbose s;
     fs := fs s; out := out s |}.
Definition set_pastes_for_save (v : list (string * string)) (s : state)
  : state :=
  {| regexes := regexes s; prev_checked_ids := prev_checked_ids s;
     new_checked_ids := new_checked_ids s;
     pastes_for_save := v; verbose := verbose s;
     fs := fs s; out := out s |}.
Definition set_verbose (v : bool) (s : state) : state :=
  {| regexes := regexes s; prev_checked_ids := prev_checked_ids s;
     new_checked_ids := new_checked_ids s;
     pastes_for_save := pastes_for_save s; verbose := v;
     fs := fs s; out := out s |}.
Definition set_fs (v : filesystem) (s : state) : state :=
  {| regexes := regexes s; prev_checked_ids := prev_checked_ids s;
     new_checked_ids := new_checked_ids s;
     pastes_for_save := pastes_for_save s; verbose := verbose s;
     fs := v; out := out s |}.
Definition set_out (v : list event) (s : state) : state :=
  {| regexes := regexes s; prev_checked_ids := prev_checked_ids s;
     new_checked_ids := new_checked_ids s;
     pastes_for_save := pastes_for_save s; verbose := verbose s;
     fs := fs s; out := v |}.

(** ** The monad of the crawler's methods: state that survives a raise *)

Definition M (A : Type) : Type := state -> outcome A * state.

Definition ret {A} (a : A) : M A := fun s => (Ok a, s).
Definition raise {A} (e : exn) : M A := fun s => (Raise e, s).
Definition bind {A B} (m : M A) (k : A -> M B) : M B :=
  fun s => match m s with
           | (Ok a, s') => k a s'
           | (Raise e, s') => (Raise e, s')
           end.

Notation "'let!' x ':=' m 'in' k" := (bind m (fun x => k))
  (at level 10, x name, m at level 100, k at level 200, only parsing).
Notation "m '>>!' k" := (bind m (fun _ => k))
  (at level 90, right associativity, only parsing).

(** [try: body / except KeyboardInterrupt: raise / except BaseException:
    handler]. *)
Definition try_except {A} (body : M A) (handler : M A) : M A :=
  fun s => match body s with
           | (Ok a, s') => (Ok a, s')
           | (Raise KeyboardInterrupt, s') => (Raise KeyboardInterrupt, s')
           | (Raise _, s') => handler s'
           end.

Definition emit (e : event) : M unit :=
  fun s => (Ok tt, set_out (out s ++ [e]) s).

(** Runs a file-system operation on the state's file system. *)
Definition on_fs (op : filesystem -> outcome unit * filesystem) : M unit :=
  fun s => let (r, fs') := op (fs s) in (r, set_fs fs' s).

(** [time.sleep(secs)]: a negative length is a [ValueError]. *)
Definition time_sleep (secs : pynum) : M unit :=
  if pynum_negative secs then raise (Exception "ValueError")
  else emit (EvSleep secs).

(** ** Logger *)

Module Logger.

(** [Logger().log(message, is_bold, color, log_time)]: the line goes to
    the console; its time prefix and escape codes are left out. *)
Definition log (message : string) (is_bold : bool) (c : color)
    (log_time : bool) : M unit :=
  emit (EvLog message is_bold c log_time).

Definition error (err : string) : M unit := log err true Red true.

(** [exit()] raises [SystemExit]. *)
Definition fatal_error {A} (err : string) : M A :=
  error err >>! raise SystemExit.

End Logger.

(** ** What the environment answers while one listed paste is processed

    Ctrl-C is taken to arrive where the crawler waits, during the request
    for the body or during the sleep that follows; a Ctrl-C in the middle
    of the display, of the matching or of the save is not part of the
    environment. *)

Inductive fetch_result :=
| Fetched (paste_txt : string)
| FetchFailed
| FetchInterrupted.

Record paste_env := {
  (** [requests.get(paste_url, ...).text]: the body, an exception of the
      HTTP client, or Ctrl-C while the request is pending *)
  pe_fetch : fetch_result;
  (** [magic.from_buffer]: the description, or [None] when it raises *)
  pe_magic : option string;
  (** local time when [check_paste] saves a match *)
  pe_now : struct_time;
  (** Ctrl-C during [time.sleep(delay)] *)
  pe_sleep_interrupted : bool;
  (** the key [get_char()] returns at the prompt (empty at end of input) *)
  pe_key : string;
  (** local time at the i-th save of [save_last_pastes] *)
  pe_save_now : nat -> struct_time
}.

Inductive re_result := ReMatch | ReNoMatch | ReError.
Inductive re_flag := IGNORECASE.

Definition LF : string := String "010"%char EmptyString.

(** ** Crawler *)

Section Crawler.

(** [re.search(pattern, string, flags)]: a match object, [None], or
    [re.error] for a pattern that does not compile. *)
Variable re_search : string -> string -> re_flag -> re_result.

(** [get_printable_size], the size shown by [show_paste] (formatted with
    floating point; only displayed). *)
Variable get_printable_size : nat -> string.

Definition PASTEBIN_URL := "http://pastebin.com".
Definition PASTES_URL := PASTEBIN_URL +:+ "/archive".
Definition REGEXES_FILE := "regexes.txt".
Definition OK : Z := 1.
Definition ACCESS_DENIED : Z := -1.
Definition CONNECTION_FAIL : Z := -2.
Definition OTHER_ERROR : Z := -3.
Definition PASTES_DIR := "archive".

(** *** read_regexes *)

(** [[field.strip() for field in line.split(',')]] *)
Definition line_fields (line : string) : list string :=
  map PyStr.strip (PyStr.split "," line).

(** [line.strip() != '' and not line.startswith('#')] *)
Definition line_retained (line : string) : bool :=
  negb (PyStr.is_empty (PyStr.strip line))
  && negb (PyStr.startswith "#" line).

(** [[','.join(row[:-2])] + row[-2:]] *)
Definition merge_row (row : list string) : list string :=
  [PyStr.join "," (but_last2 row)] ++ last2 row.

(** The rows [read_regexes] computes from the text of the file. *)
Definition parse_regexes (text : string) : list (list string) :=
  let rows := map line_fields (filter line_retained (PyStr.readlines text)) in
  map merge_row rows.

Definition read_regexes : M unit :=
  try_except
    (let! text := (fun s => (Os.read_file REGEXES_FILE (fs s), s)) in
     try_except
       (fun s => (Ok tt, set_regexes (parse_regexes text) s))
       (Logger.fatal_error
          ("Malformed regexes file. Format:"
           +:+ " regex_pattern,URL logging file,"
           +:+ " directory logging file.")))
    (Logger.fatal_error (REGEXES_FILE +:+ " not found or not acessible.")).

(** *** show_paste *)

Definition show_paste (e : paste_env) (paste_txt : string) : M unit :=
  match pe_magic e with
  | None => raise (Exception "MagicException")
  | Some description =>
      let message :=
        description +:+ " ["
        +:+ get_printable_size (String.length paste_txt) +:+ "]" in
      Logger.log message false Blue false >>!
      Logger.log (PyStr.take 256 paste_txt) false Yellow false
  end.

(** *** save_result *)

(** The name of the content file inside its directory. *)
Definition save_name (timestamp paste_id : string) : string :=
  PyStr.replace " " "__"
    (PyStr.replace ":" "_" (PyStr.replace "/" "_" timestamp))
  +:+ "_" +:+ PyStr.replace "/" EmptyString paste_id +:+ ".txt".

Definition save_result (now : struct_time)
    (paste_url paste_id file directory paste_txt : string) : M unit :=
  let directory := PASTES_DIR +:+ "/" +:+ directory in
  let file := PASTES_DIR +:+ "/" +:+ file in
  let timestamp := get_timestamp now in
  try_except (on_fs (Os.makedirs directory)) (ret tt) >>!
  on_fs (Os.append_file file (timestamp +:+ " - " +:+ paste_url +:+ LF)) >>!
  let save_paste := directory +:+ "/" +:+ save_name timestamp paste_id in
  on_fs (Os.write_file save_paste (paste_txt +:+ LF)).

(** *** check_paste *)

Inductive classification :=
| Matched (regex file directory : string)
| NoMatch
| ClassifyError (e : exn).

(** The [for regex, file, directory in self.regexes] loop up to its first
    hit: a row that is not a triple fails to unpack, a pattern the engine
    refuses raises, and both end the loop. *)
Fixpoint classify (rules : list (list string)) (paste_txt : string)
  : classification :=
  match rules with
  | [] => NoMatch
  | [regex; file; directory] :: rest =>
      match re_search regex (PyStr.take 1024 paste_txt) IGNORECASE with
      | ReMatch => Matched regex file directory
      | ReNoMatch => classify rest paste_txt
      | ReError => ClassifyError (Exception "re.error")
      end
  | _ :: _ => ClassifyError (Exception "ValueError")
  end.

Definition requests_get (e : paste_env) (url : string) : M string :=
  emit (EvGet url) >>!
  match pe_fetch e with
  | Fetched paste_txt => ret paste_txt
  | FetchFailed => raise (Exception "RequestException")
  | FetchInterrupted => raise KeyboardInterrupt
  end.

Definition check_paste (e : paste_env) (paste_id : string) : M bool :=
  let paste_url := PASTEBIN_URL +:+ "/raw" +:+ paste_id in
  try_except
    (let! paste_txt := requests_get e paste_url in
     let! silent := (fun s => (Ok (verbose s), s)) in
     (if negb silent then show_paste e paste_txt else ret tt) >>!
     let! rules := (fun s => (Ok (regexes s), s)) in
     match classify rules paste_txt with
     | Matched regex file directory =>
         Logger.log ("Found a matching paste: " +:+ paste_url
                     +:+ " (" +:+ file +:+ ")") true Cyan true >>!
         save_result (pe_now e) paste_url paste_id file directory paste_txt
         >>! ret true
     | ClassifyError x => raise x
     | NoMatch =>
         Logger.log ("Not matching paste: " +:+ paste_url) false NoColor true
         >>!
         (fun s => (Ok tt, set_pastes_for_save
                             (pastes_for_save s ++ [(paste_id, paste_txt)])
                             s))
         >>! ret false
     end)
    (Logger.log "Error reading paste (probably a 404 or encoding issue)."
       true Yellow true >>! ret false).

(** *** save_last_pastes *)

Fixpoint save_each (clock : nat -> struct_time) (i : nat)
    (pastes : list (string * string)) : M unit :=
  match pastes with
  | [] => ret tt
  | (paste_id, paste_txt) :: rest =>
      save_result (clock i) EmptyString paste_id "saves.txt" "saves" paste_txt >>!
      save_each clock (S i) rest
  end.

Definition save_last_pastes (clock : nat -> struct_time) : M unit :=
  (fun s => save_each clock 0 (pastes_for_save s) s) >>!
  (fun s => (Ok tt, set_pastes_for_save [] s)).

(** *** start *)

Record config := {
  refresh_time : Z;
  delay : pynum;
  ban_wait : Z;
  flush_after_x_refreshes : Z;
  connection_timeout : pynum;
  silent : bool
}.

(** What [get_pastes] finds on the archive page, each listed [href] with
    what the environment answers while it is processed. *)
Inductive page :=
| Listing (pastes : list (string * paste_env))
| Denied
| ConnectionDown
| Undecodable.

Record round_env := {
  r_page : page;
  (** [time.time() - start_time] at the end of the cycle *)
  r_elapsed : Q
}.

Definition get_pastes (r : round_env)
  : M (Z * list (string * paste_env)) :=
  Logger.log "Getting pastes" true NoColor true >>!
  match r_page r with
  | ConnectionDown => ret (CONNECTION_FAIL, [])
  | Undecodable => ret (OTHER_ERROR, [])
  | Denied => ret (ACCESS_DENIED, [])
  | Listing pastes => ret (OK, pastes)
  end.

(** [try: body / except KeyboardInterrupt: handler] *)
Definition on_interrupt {A} (body handler : M A) : M A :=
  fun s => match body s with
           | (Raise KeyboardInterrupt, s') => handler s'
           | r => r
           end.

(** [time.sleep(delay)] after a paste was checked, where Ctrl-C may
    arrive. *)
Definition sleep_delay (e : paste_env) (secs : pynum) : M unit :=
  if pynum_negative secs then raise (Exception "ValueError")
  else if pe_sleep_interrupted e then raise KeyboardInterrupt
  else emit (EvSleep secs).

(** The [except KeyboardInterrupt] branch of the loop over the listing:
    [count] keeps the value it had before the interrupted step. *)
Definition interrupted (e : paste_env) (count : Z) : M Z :=
  let! n := (fun s => (Ok (length (pastes_for_save s)), s)) in
  Logger.log (LF +:+ "Quit/Verbose/Save(last " +:+ pretty n
              +:+ " pastes)[q/v/s]:") false Red false >>!
  emit EvGetChar >>!
  let user_choice := pe_key e in
  (if PyStr.contains user_choice "sS"
   then save_last_pastes (pe_save_now e) else ret tt) >>!
  (if PyStr.contains user_choice "vV"
   then (fun s => (Ok tt, set_verbose (negb (verbose s)) s)) else ret tt) >>!
  (if PyStr.contains user_choice "qQ"
   then raise KeyboardInterrupt else ret tt) >>!
  ret count.

(** One turn of [for paste in pastes]. *)
Definition process_paste (cfg : config) (entry : string * paste_env)
    (count : Z) : M Z :=
  let (paste_id, e) := entry in
  on_interrupt
    ((fun s => (Ok tt, set_new_checked_ids (new_checked_ids s ++ [paste_id]) s))
     >>!
     let! prev := (fun s => (Ok (prev_checked_ids s), s)) in
     (if negb (bool_decide (paste_id ∈ prev))
      then check_paste e paste_id >>! sleep_delay e (delay cfg)
      else ret tt) >>!
     ret (count + 1)%Z)
    (interrupted e count).

Fixpoint for_pastes (cfg : config) (pastes : list (string * paste_env))
    (count : Z) : M Z :=
  match pastes with
  | [] => ret count
  | entry :: rest =>
      let! count := process_paste cfg entry count in
      for_pastes cfg rest count
  end.

(** The end of a successful cycle: the listing of the cycle replaces or
    extends the identifiers already checked. *)
Definition commit_ids (cfg : config) (count : Z) : M Z :=
  let! count :=
    (fun s =>
       if (count =? flush_after_x_refreshes cfg)%Z
       then (Ok 0%Z, set_prev_checked_ids (new_checked_ids s) s)
       else (Ok count,
             set_prev_checked_ids (prev_checked_ids s ++ new_checked_ids s) s))
  in
  (fun s => (Ok tt, set_new_checked_ids [] s)) >>!
  ret count.

(** [ceil(max(0, refresh_time - elapsed_time))] *)
Definition sleep_time (cfg : config) (elapsed_time : Q) : Z :=
  let d := (inject_Z (refresh_time cfg) - elapsed_time)%Q in
  Qceiling (if Qle_bool d 0 then 0%Q else d).

(** [for i in range(0, ban_wait)] *)
Fixpoint ban_countdown (ban_wait : Z) (steps : list Z) : M unit :=
  match steps with
  | [] => ret tt
  | i :: rest =>
      Logger.log ("Please wait " +:+ pretty (ban_wait - i)%Z +:+ " minute"
                  +:+ (if (1 <? ban_wait - i)%Z then "s" else EmptyString))
        false NoColor true >>!
      time_sleep (PyInt 60) >>!
      ban_countdown ban_wait rest
  end.

(** [text.format(x)] where [text] holds one [{:d}]. *)
Definition format1 (before : string) (x : pynum) (after : string)
  : M string :=
  match format_d x with
  | Some d => ret (before +:+ d +:+ after)
  | None => raise (Exception "ValueError")
  end.

(** One turn of [while True]. *)
Definition iteration (cfg : config) (r : round_env) (count : Z) : M Z :=
  let! polled := get_pastes r in
  let (status, pastes) := polled : Z * list (string * paste_env) in
  (fun s => (Ok tt, set_pastes_for_save [] s)) >>!
  if (status =? OK)%Z then
    let! count := for_pastes cfg pastes count in
    let! count := commit_ids cfg count in
    let sleep_time := sleep_time cfg (r_elapsed r) in
    (if (0 <? sleep_time)%Z then
       let! message := format1 "Waiting " (PyInt sleep_time)
                         " seconds to refresh..." in
       Logger.log message true NoColor true >>!
       time_sleep (PyInt sleep_time)
     else ret tt) >>!
    ret count
  else if (status =? ACCESS_DENIED)%Z then
    Logger.log ("Damn! It looks like you have been"
                +:+ " banned (probably temporarily)") true Yellow true >>!
    ban_countdown (ban_wait cfg) (seqZ 0 (ban_wait cfg)) >>!
    ret count
  else if (status =? CONNECTION_FAIL)%Z then
    let! message := format1 "Connection down. Waiting "
                      (connection_timeout cfg)
                      " seconds and trying again" in
    Logger.log message true Red true >>!
    time_sleep (connection_timeout cfg) >>!
    ret count
  else if (status =? OTHER_ERROR)%Z then
    let! message := format1 ("Unknown error. Maybe an encoding problem?"
                             +:+ " Trying again in ")
                      (connection_timeout cfg) " seconds ." in
    Logger.log message true Red true >>!
    time_sleep (PyInt 1) >>!
    ret count
  else ret count.

(** The first [length rounds] turns of the loop, one per answer of the
    archive page. *)
Fixpoint loop (cfg : config) (rounds : list round_env) (count : Z) : M Z :=
  match rounds with
  | [] => ret count
  | r :: rest =>
      let! count := iteration cfg r count in
      loop cfg rest count
  end.

Definition start (cfg : config) (rounds : list round_env) : M Z :=
  (fun s => (Ok tt, set_verbose (silent cfg) s)) >>!
  loop cfg rounds 0%Z.

(** The module body: [Crawler()] reads the rules, then [start] runs until
    an exception leaves it. *)
Definition main (cfg : config) (rounds : list round_env) : M unit :=
  on_interrupt
    (read_regexes >>! start cfg rounds >>! ret tt)
    (Logger.log "Bye! Hope you found what you were looking for :)"
       true NoColor true).

End Crawler.

(** ** Derived views used in the statements *)

(** What [save_result] does to the file system, the state left aside:
    [makedirs] with its failure swallowed, then the audit line, then the
    content file. *)
Definition save_result_fs (now : struct_time)
    (paste_url paste_id file directory paste_txt : string)
    (f : filesystem) : outcome unit * filesystem :=
  let directory := PASTES_DIR +:+ "/" +:+ directory in
  let file := PASTES_DIR +:+ "/" +:+ file in
  let timestamp := get_timestamp now in
  let f1 := snd (Os.makedirs directory f) in
  match Os.append_file file (timestamp +:+ " - " +:+ paste_url +:+ LF) f1 with
  | (Ok _, f2) =>
      Os.write_file (directory +:+ "/" +:+ save_name timestamp paste_id)
        (paste_txt +:+ LF) f2
  | (Raise e, f2) => (Raise e, f2)
  end.

Global Arguments save_result_fs : simpl never.

(** The test [paste_id not in self.prev_checked_ids] of [start]. *)
Definition is_new (s : state) (paste_id : string) : bool :=
  negb (bool_decide (paste_id ∈ prev_checked_ids s)).

(** The text of a file, empty when it does not exist. *)
Definition file_text (f : filesystem) (path : string) : string :=
  default EmptyString (fs_files f !! path).

(** The requests for the raw body of [paste_id] in a trace. *)
Definition is_get_of (paste_id : string) (ev : event) : bool :=
  match ev with
  | EvGet url => bool_decide (url = PASTEBIN_URL +:+ "/raw" +:+ paste_id)
  | _ => false
  end.
Definition fetches (paste_id : string) (trace : list event) : nat :=
  length (filter (fun ev => is_get_of paste_id ev = true) trace).

(** A rule as the specification has it, and the row [read_regexes] keeps
    for it. *)
Definition rule : Type := string * string * string.
Definition rule_row (r : rule) : list string :=
  let '(regex, file, directory) := r in [regex; file; directory].
Definition rule_pattern (r : rule) : string :=
  let '(regex, _, _) := r in regex.

Section FirstMatch.
Variable re_search : string -> string -> re_flag -> re_result.

Definition rule_matches (paste_txt : string) (r : rule) : bool :=
  match re_search (rule_pattern r) (PyStr.take 1024 paste_txt) IGNORECASE with
  | ReMatch => true
  | _ => false
  end.

(** Following the specification's words: the first rule, in the order of
    the rule set, whose pattern matches within the first 1024 characters
    of the body, or none. *)
Definition first_match (rules : list rule) (paste_txt : string)
  : option rule :=
  List.find (rule_matches paste_txt) rules.

Definition classification_of (found : option rule) : classification :=
  match found with
  | Some (regex, file, directory) => Matched regex file directory
  | None => NoMatch
  end.

End FirstMatch.

(** ** A fresh crawler and a small engine for examples *)

(** The attributes of a new [Crawler] (the class-level defaults), on a
    given file system and with an empty console. *)
Definition initial_state (files : filesystem) : state :=
  {| regexes := []; prev_checked_ids := []; new_checked_ids := [];
     pastes_for_save := []; verbose := false; fs := files; out := [] |}.

(** A file system that holds the rule file and nothing else. *)
Definition rules_only (text : string) : filesystem :=
  {| fs_dirs := ∅; fs_files := {[ REGEXES_FILE := text ]} |}.

Module Example.

Definition lower (c : ascii) : ascii :=
  let n := nat_of_ascii c in
  if ((65 <=? n) && (n <=? 90))%nat then ascii_of_nat (n + 32) else c.

Fixpoint lowercase (s : string) : string :=
  match s with
  | EmptyString => EmptyString
  | String c r => String (lower c) (lowercase r)
  end.

(** [re.search] on patterns made of letters, digits and spaces, where it
    is a substring test that ignores case; a pattern with an opening
    parenthesis stands for one that does not compile. *)
Definition literal_search (pattern text : string) (flag : re_flag)
  : re_result :=
  if PyStr.has_char "(" pattern then ReError
  else if PyStr.contains (lowercase pattern) (lowercase text) then ReMatch
  else ReNoMatch.

Definition printable_size (n : nat) : string := pretty n +:+ " B".

Definition noon : struct_time :=
  {| tm_year := 2020; tm_mon := 1; tm_mday := 2;
     tm_hour := 3; tm_min := 4; tm_sec := 5 |}.

(** The environment of a paste whose body arrives and is displayed. *)
Definition served (paste_txt : string) : paste_env :=
  {| pe_fetch := Fetched paste_txt; pe_magic := Some "ASCII text";
     pe_now := noon; pe_sleep_interrupted := false;
     pe_key := EmptyString; pe_save_now := fun _ => noon |}.

(** The environment of a paste whose request fails. *)
Definition unreachable : paste_env :=
  {| pe_fetch := FetchFailed; pe_magic := Some "ASCII text";
     pe_now := noon; pe_sleep_interrupted := false;
     pe_key := EmptyString; pe_save_now := fun _ => noon |}.

(** The environment of a paste whose body arrives but cannot be shown. *)
Definition undisplayable (paste_txt : string) : paste_env :=
  {| pe_fetch := Fetched paste_txt; pe_magic := None;
     pe_now := noon; pe_sleep_interrupted := false;
     pe_key := EmptyString; pe_save_now := fun _ => noon |}.

Definition defaults : config :=
  {| refresh_time := 30; delay := PyFloat 3; ban_wait := 5;
     flush_after_x_refreshes := 100; connection_timeout := PyInt 60;
     silent := false |}.

Definition with_flush (n : Z) : config :=
  {| refresh_time := 30; delay := PyFloat 3; ban_wait := 5;
     flush_after_x_refreshes := n; connection_timeout := PyInt 60;
     silent := false |}.

Definition listing (ids : list string) : round_env :=
  {| r_page := Listing (map (fun i => (i, served "normal text")) ids);
     r_elapsed := 0 |}.

(** The options [-c secs], the others at their defaults. *)
Definition with_timeout (secs : pynum) : config :=
  {| refresh_time := 30; delay := PyFloat 3; ban_wait := 5;
     flush_after_x_refreshes := 100; connection_timeout := secs;
     silent := false |}.

(** The options [-b minutes], the others at their defaults. *)
Definition with_ban_wait (minutes : Z) : config :=
  {| refresh_time := 30; delay := PyFloat 3; ban_wait := minutes;
     flush_after_x_refreshes := 100; connection_timeout := PyInt 60;
     silent := false |}.

Definition unreachable_archive : round_env :=
  {| r_page := ConnectionDown; r_elapsed := 0 |}.

Definition nothing_on_disk : filesystem :=
  {| fs_dirs := ∅; fs_files := ∅ |}.

(** The rule [token,tokens.txt,found] as [read_regexes] keeps it. *)
Definition token_rules : list (list string) :=
  [["token"; "tokens.txt"; "found"]].

(** A crawler with that rule and nothing saved yet. *)
Definition ready : state :=
  set_regexes token_rules (initial_state nothing_on_disk).

(** A disk where [archive/found], the directory of the rule, is taken by
    a regular file. *)
Definition found_is_a_file : filesystem :=
  {| fs_dirs := {[ "archive" ]};
     fs_files := {[ "archive/found" := "2020/01/01 00:00:00 - " ]} |}.

Definition blocked : state :=
  set_regexes token_rules (initial_state found_is_a_file).

Definition secret : string := "secret token ABC".

Definition secret_url : string := "http://pastebin.com/raw/x1".

(** [ready] after one and after two saves of the same paste. *)
Definition saved_once : state :=
  snd (save_result noon secret_url "/x1" "tokens.txt" "found" secret ready).
Definition saved_twice : state :=
  snd (save_result noon secret_url "/x1" "tokens.txt" "found" secret
         saved_once).

(** A cycle in which one request fails and one body arrives. *)
Definition one_failure : list (string * paste_env) :=
  [("/x1", unreachable); ("/x2", served "normal text")].

End Example.

(** ** Postconditions of the methods *)

(** The part of the state [check_paste], [save_result] and the prompt
    never write. *)
Definition same_ids (s s' : state) : Prop :=
  regexes s' = regexes s
  /\ prev_checked_ids s' = prev_checked_ids s
  /\ new_checked_ids s' = new_checked_ids s.

(** What [check_paste] leaves behind, whatever happens to the paste. *)
Definition check_paste_post (e : paste_env) (paste_id : string)
    (s : state) (r : outcome bool) (s' : state) : Prop :=
  same_ids s s'
  /\ verbose s' = verbose s
  /\ (exists logs,
        out s' = out s ++ EvGet (PASTEBIN_URL +:+ "/raw" +:+ paste_id) :: logs
        /\ forall i, fetches i logs = 0%nat)
  /\ match r with
     | Ok _ => pe_fetch e <> FetchInterrupted
     | Raise x => x = KeyboardInterrupt /\ pe_fetch e = FetchInterrupted
     end.

(** What answering the prompt leaves behind. *)
Definition interrupted_post (count : Z) (s : state) (r : outcome Z)
    (s' : state) : Prop :=
  same_ids s s'
  /\ (exists logs, out s' = out s ++ logs /\ forall i, fetches i logs = 0%nat)
  /\ forall c, r = Ok c -> c = count.

(** How often an identifier is listed. *)
Definition occurrences (i : string) (ids : list string) : nat :=
  length (filter (fun x => x = i) ids).

(** What one turn of the loop over the listing leaves behind. *)
Definition process_paste_post (cfg : config) (paste_id : string)
    (e : paste_env) (count : Z) (s : state) (r : outcome Z) (s' : state)
  : Prop :=
  regexes s' = regexes s
  /\ prev_checked_ids s' = prev_checked_ids s
  /\ new_checked_ids s' = new_checked_ids s ++ [paste_id]
  /\ (exists delta,
        out s' = out s ++ delta
        /\ forall i, fetches i delta
                     = if is_new s paste_id && bool_decide (paste_id = i)
                       then 1%nat else 0%nat)
  /\ (pe_fetch e <> FetchInterrupted ->
      pe_sleep_interrupted e = false ->
      pynum_negative (delay cfg) = false ->
      r = Ok (count + 1)%Z).

(** No Ctrl-C arrives while the listing is processed. *)
Definition uninterrupted (pastes : list (string * paste_env)) : Prop :=
  Forall (fun entry => pe_fetch (snd entry) <> FetchInterrupted
                       /\ pe_sleep_interrupted (snd entry) = false) pastes.

(** ** The paths and lines of [save_result] *)


(** [self.PASTES_DIR + '/' + file] *)
Definition audit_path (file : string) : string :=
  PASTES_DIR +:+ "/" +:+ file.

(** [self.PASTES_DIR + '/' + directory] *)
Definition category_dir (directory : string) : string :=
  PASTES_DIR +:+ "/" +:+ directory.

(** The value of [save_paste]. *)
Definition content_path (now : struct_time) (directory paste_id : string)
  : string :=
  category_dir directory +:+ "/" +:+ save_name (get_timestamp now) paste_id.

(** [timestamp + ' - ' + paste_url + '\n'] *)
Definition audit_line (now : struct_time) (paste_url : string) : string :=
  get_timestamp now +:+ " - " +:+ paste_url +:+ LF.

(** The lines [show_paste] prints when it runs and completes. *)
Definition display_lines (get_printable_size : nat -> string)
    (silent : bool) (e : paste_env) (paste_txt : string) : list event :=
  if silent then []
  else match pe_magic e with
       | Some description =>
           [EvLog (description +:+ " ["
                   +:+ get_printable_size (String.length paste_txt) +:+ "]")
              false Blue false;
            EvLog (PyStr.take 256 paste_txt) false Yellow false]
       | None => []
       end.

(** [show_paste] is skipped or completes. *)
Definition displayable (silent : bool) (e : paste_env) : Prop :=
  silent = true \/ is_Some (pe_magic e).

(** ** One successful cycle, in three steps *)

(** The state when the listing is about to be gone through:
    [get_pastes] has logged and the buffer of unmatched pastes is
    emptied. *)
Definition polled (s : state) : state :=
  set_pastes_for_save []
    (set_out (out s ++ [EvLog "Getting pastes" true NoColor true]) s).

(** The test [count == flush_after_x_refreshes] at the end of a cycle. *)
Definition flush_due (cfg : config) (count : Z) : bool :=
  (count =? flush_after_x_refreshes cfg)%Z.

(** The identifiers after the end of a cycle that reached it with the
    counter at [count]. *)
Definition committed (cfg : config) (count : Z) (s : state) : state :=
  set_new_checked_ids []
    (set_prev_checked_ids
       (if flush_due cfg count then new_checked_ids s
        else prev_checked_ids s ++ new_checked_ids s) s).

(** The wait that ends a successful cycle. *)
Definition refresh_wait (cfg : config) (elapsed : Q) : list event :=
  let t := sleep_time cfg elapsed in
  if (0 <? t)%Z
  then [EvLog ("Waiting " +:+ pretty t +:+ " seconds to refresh...")
          true NoColor true;
        EvSleep (PyInt t)]
  else [].

(** ** Measures on lines and on the buffer *)

(** The string consists of white space only. *)
Fixpoint all_space (s : string) : bool :=
  match s with
  | EmptyString => true
  | String c r => PyStr.isspace c && all_space r
  end.

(** The lines [save_last_pastes] appends to [archive/saves.txt], one per
    buffered paste, the i-th at the time of the i-th save. *)
Fixpoint saves_lines (clock : nat -> struct_time) (i : nat)
    (pastes : list (string * string)) : string :=
  match pastes with
  | [] => EmptyString
  | _ :: rest =>
      audit_line (clock i) EmptyString +:+ saves_lines clock (S i) rest
  end.

(** The countdown of the ban wait, from [minutes] down to 1. *)
Fixpoint countdown (minutes : nat) : list event :=
  match minutes with
  | O => []
  | S k =>
      EvLog ("Please wait " +:+ pretty (Z.of_nat minutes) +:+ " minute"
             +:+ (if (1 <? Z.of_nat minutes)%Z then "s" else EmptyString))
        false NoColor true
      :: EvSleep (PyInt 60) :: countdown k
  end.

(** The row is a triple whose pattern is not found in the body. *)
Definition passes_by (re_search : string -> string -> re_flag -> re_result)
    (paste_txt : string) (row : list string) : Prop :=
  exists regex file directory,
    row = [regex; file; directory]
    /\ re_search regex (PyStr.take 1024 paste_txt) IGNORECASE = ReNoMatch.

(** The key read at the prompt is one of two letters, or nothing was read
    (the standard input is at its end). *)
Definition answers (a b : ascii) (key : string) : bool :=
  match key with
  | EmptyString => true
  | String c _ => Ascii.eqb c a || Ascii.eqb c b
  end.

(** The prompt of the interrupt handler and the read of the key. *)
Definition prompted (s : state) : state :=
  set_out (out s
           ++ [EvLog (LF +:+ "Quit/Verbose/Save(last "
                      +:+ pretty (length (pastes_for_save s))
                      +:+ " pastes)[q/v/s]:") false Red false;
               EvGetChar]) s.

Module Scenario.

(** Ctrl-C while the request is pending, answered with [key]. *)
Definition interrupted_with (key : string) : paste_env :=
  {| pe_fetch := FetchInterrupted; pe_magic := Some "ASCII text";
     pe_now := Example.noon; pe_sleep_interrupted := false;
     pe_key := key; pe_save_now := fun _ => Example.noon |}.

Definition quit_at_once : list round_env :=
  [{| r_page := Listing [("/x1", interrupted_with "q")]; r_elapsed := 0 |}].

Definition banned : round_env := {| r_page := Denied; r_elapsed := 0 |}.

Definition undecodable : round_env :=
  {| r_page := Undecodable; r_elapsed := 0 |}.

(** A crawler with the rules of the file [foo] and then
    [token,tokens.txt,found]: the first row has two entries. *)
Definition short_row_first : state :=
  set_regexes (parse_regexes ("foo" +:+ LF +:+ "token,tokens.txt,found"))
    (initial_state Example.nothing_on_disk).

(** A crawler that holds two unmatched pastes. *)
Definition two_buffered : state :=
  set_pastes_for_save [("/x1", "first"); ("/x2", "second")] Example.ready.

End Scenario.

(** * Properties *)

(** ** Strings *)

Section StringFacts.

Lemma str_app_cons (c : ascii) (s t : string) :
  String c s +:+ t = String c (s +:+ t).
Proof. reflexivity. Qed.

Lemma str_app_nil_l (t : string) : EmptyString +:+ t = t.
Proof. reflexivity. Qed.

Lemma str_app_nil_r (s : string) : s +:+ EmptyString = s.
Proof.
  induction s as [|c s IH]; [reflexivity |].
  by rewrite str_app_cons, IH.
Qed.

Lemma str_app_assoc (a b c : string) : (a +:+ b) +:+ c = a +:+ (b +:+ c).
Proof.
  induction a as [|x a IH]; [reflexivity |].
  by rewrite !str_app_cons, IH.
Qed.

Lemma has_char_app (c : ascii) (a b : string) :
  PyStr.has_char c (a +:+ b) = PyStr.has_char c a || PyStr.has_char c b.
Proof.
  induction a as [|x a IH]; [reflexivity |].
  rewrite str_app_cons. simpl. rewrite IH. by rewrite orb_assoc.
Qed.

(** After [s.replace(c, new)] no [c] is left, unless [new] brings one. *)
Lemma has_char_replace_same (c : ascii) (new s : string) :
  PyStr.has_char c new = false ->
  PyStr.has_char c (PyStr.replace c new s) = false.
Proof.
  intros Hnew. induction s as [|x s IH]; simpl; [reflexivity |].
  destruct (Ascii.eqb x c) eqn:E.
  - rewrite has_char_app, Hnew, IH. reflexivity.
  - simpl. rewrite E, IH. reflexivity.
Qed.

(** Replacing another character does not bring [c] in. *)
Lemma has_char_replace_other (c d : ascii) (new s : string) :
  PyStr.has_char c new = false ->
  PyStr.has_char c s = false ->
  PyStr.has_char c (PyStr.replace d new s) = false.
Proof.
  intros Hnew. induction s as [|x s IH]; simpl; [reflexivity |].
  intros [Hx Hs]%orb_false_iff.
  destruct (Ascii.eqb x d).
  - rewrite has_char_app, Hnew, IH; done.
  - simpl. rewrite Hx, IH; done.
Qed.



(** [dirname] of a file name placed in a directory is the directory. *)
Lemma dirname_join (d name : string) :
  PyStr.has_char "/" name = false ->
  Os.dirname (d +:+ "/" +:+ name) = d.
Proof.
  intros Hname. induction d as [|x d IH].
  - rewrite str_app_nil_l, str_app_cons, str_app_nil_l. simpl.
    by rewrite Hname.
  - rewrite str_app_cons. simpl. rewrite IH, has_char_app, str_app_cons.
    simpl. by rewrite orb_true_r.
Qed.

End StringFacts.

(** ** The methods, step by step *)

Ltac run :=
  unfold bind, ret, raise, try_except, on_interrupt, emit, on_fs, Logger.log,
    Logger.error, Logger.fatal_error, time_sleep in *.

Lemma makedirs_raises name f e f' :
  Os.makedirs name f = (Raise e, f') -> e <> KeyboardInterrupt /\ f' = f.
Proof. unfold Os.makedirs. repeat case_match; intros; simplify_eq; done. Qed.

Lemma append_file_raises path data f e f' :
  Os.append_file path data f = (Raise e, f') ->
  e = Exception "OSError" /\ f' = f.
Proof. unfold Os.append_file. case_match; intros; simplify_eq; done. Qed.

Lemma write_file_raises path data f e f' :
  Os.write_file path data f = (Raise e, f') ->
  e = Exception "OSError" /\ f' = f.
Proof. unfold Os.write_file. case_match; intros; simplify_eq; done. Qed.

Lemma save_result_run now paste_url paste_id file directory paste_txt s :
  save_result now paste_url paste_id file directory paste_txt s
  = (fst (save_result_fs now paste_url paste_id file directory paste_txt
            (fs s)),
     set_fs (snd (save_result_fs now paste_url paste_id file directory
                    paste_txt (fs s))) s).
Proof.
  unfold save_result, save_result_fs. run.
  destruct (Os.makedirs _ (fs s)) as [[[]|e] f1] eqn:Hmk; simpl.
  - destruct (Os.append_file _ _ f1) as [[[]|e] f2]; simpl; [|done].
    destruct (Os.write_file _ _ f2) as [r f3]; simpl. done.
  - apply makedirs_raises in Hmk as [Hne ->].
    destruct e; [done| |].
    all: simpl; destruct (Os.append_file _ _ (fs s)) as [[[]|e'] f2]; simpl;
      try done.
    all: destruct (Os.write_file _ _ f2) as [r f3]; simpl; done.
Qed.

Lemma save_result_fs_raises now paste_url paste_id file directory paste_txt
    f e f' :
  save_result_fs now paste_url paste_id file directory paste_txt f
  = (Raise e, f') ->
  e = Exception "OSError".
Proof.
  unfold save_result_fs.
  destruct (Os.append_file _ _ _) as [[[]|e1] f2] eqn:Ha.
  - intros Hw. by apply write_file_raises in Hw as [-> _].
  - intros ?; simplify_eq. by apply append_file_raises in Ha as [-> _].
Qed.

Lemma fetches_app i a b : fetches i (a ++ b) = (fetches i a + fetches i b)%nat.
Proof. unfold fetches. by rewrite filter_app, length_app. Qed.

Lemma is_get_of_get i paste_id :
  is_get_of i (EvGet (PASTEBIN_URL +:+ "/raw" +:+ paste_id))
  = bool_decide (paste_id = i).
Proof.
  unfold is_get_of. apply bool_decide_ext. split.
  - intros Heq.
    apply (inj (String.append PASTEBIN_URL)) in Heq.
    apply (inj (String.append "/raw")) in Heq. exact Heq.
  - intros Heq. rewrite Heq. reflexivity.
Qed.

Lemma fetches_cons i ev trace :
  fetches i (ev :: trace)
  = ((if is_get_of i ev then 1 else 0) + fetches i trace)%nat.
Proof.
  unfold fetches. destruct (is_get_of i ev) eqn:E.
  - rewrite filter_cons_True; [reflexivity | exact E].
  - rewrite filter_cons_False; [reflexivity |]. rewrite E. discriminate.
Qed.

Lemma fetches_get i paste_id trace :
  fetches i (EvGet (PASTEBIN_URL +:+ "/raw" +:+ paste_id) :: trace)
  = ((if bool_decide (paste_id = i) then 1 else 0) + fetches i trace)%nat.
Proof. rewrite fetches_cons, is_get_of_get. reflexivity. Qed.

Lemma fetches_log i message is_bold c log_time trace :
  fetches i (EvLog message is_bold c log_time :: trace) = fetches i trace.
Proof. by rewrite fetches_cons. Qed.

Lemma fetches_sleep i secs trace :
  fetches i (EvSleep secs :: trace) = fetches i trace.
Proof. by rewrite fetches_cons. Qed.

Lemma fetches_get_char i trace :
  fetches i (EvGetChar :: trace) = fetches i trace.
Proof. by rewrite fetches_cons. Qed.

Lemma fetches_nil i : fetches i [] = 0%nat.
Proof. done. Qed.

Create Rewrite HintDb trace.
Hint Rewrite fetches_app fetches_log fetches_sleep fetches_get_char
  fetches_get fetches_nil : trace.

(** ** The file system *)

Lemma makedirs_files name f : fs_files (snd (Os.makedirs name f)) = fs_files f.
Proof. unfold Os.makedirs. by repeat case_match. Qed.

Lemma makedirs_dirs_mono name f p :
  p ∈ fs_dirs f -> p ∈ fs_dirs (snd (Os.makedirs name f)).
Proof.
  unfold Os.makedirs. repeat case_match; simpl; try done.
  intros ?. apply elem_of_union. by right.
Qed.


(** Whether a path can be opened for writing depends on the directories
    only. *)
Lemma can_open_dirs f g path :
  fs_dirs f = fs_dirs g -> Os.can_open f path = Os.can_open g path.
Proof.
  intros Heq. unfold Os.can_open, Os.parent_ok, Os.isdir. by rewrite Heq.
Qed.

Lemma append_file_ok path data f :
  Os.can_open f path = true ->
  Os.append_file path data f
  = (Ok tt, {| fs_dirs := fs_dirs f;
               fs_files := <[path := file_text f path +:+ data]>
                             (fs_files f) |}).
Proof. intros H. unfold Os.append_file, file_text. by rewrite H. Qed.

Lemma append_file_refused path data f :
  Os.can_open f path = false ->
  Os.append_file path data f = (Raise (Exception "OSError"), f).
Proof. intros H. unfold Os.append_file. by rewrite H. Qed.

Lemma write_file_ok path data f :
  Os.can_open f path = true ->
  Os.write_file path data f
  = (Ok tt, {| fs_dirs := fs_dirs f;
               fs_files := <[path := data]> (fs_files f) |}).
Proof. intros H. unfold Os.write_file. by rewrite H. Qed.

Lemma write_file_refused path data f :
  Os.can_open f path = false ->
  Os.write_file path data f = (Raise (Exception "OSError"), f).
Proof. intros H. unfold Os.write_file. by rewrite H. Qed.

(** ** The name of the content file *)










(** The name holds no slash, whatever the time stamp and the identifier. *)
Lemma save_name_no_slash timestamp paste_id :
  PyStr.has_char "/" (save_name timestamp paste_id) = false.
Proof.
  unfold save_name. rewrite !has_char_app.
  rewrite (has_char_replace_other "/" " "); [| done |].
  - rewrite (has_char_replace_same "/" EmptyString); done.
  - apply has_char_replace_other; [done |].
    by apply has_char_replace_same.
Qed.

Lemma dirname_content_path now directory paste_id :
  Os.dirname (content_path now directory paste_id) = category_dir directory.
Proof. unfold content_path. apply dirname_join, save_name_no_slash. Qed.

(** ** save_result on the file system *)

Lemma file_text_makedirs name f path :
  file_text (snd (Os.makedirs name f)) path = file_text f path.
Proof. unfold file_text. by rewrite makedirs_files. Qed.

(** A call that returns normally: both files could be opened once the
    directory had been dealt with, and the two writes are all that
    happened to the files. *)
Lemma save_result_fs_returns now paste_url paste_id file directory paste_txt
    f f' :
  save_result_fs now paste_url paste_id file directory paste_txt f
  = (Ok tt, f') ->
  let f1 := snd (Os.makedirs (category_dir directory) f) in
  Os.can_open f1 (audit_path file) = true
  /\ Os.can_open f1 (content_path now directory paste_id) = true
  /\ fs_dirs f' = fs_dirs f1
  /\ fs_files f'
     = <[content_path now directory paste_id := paste_txt +:+ LF]>
         (<[audit_path file
            := file_text f (audit_path file) +:+ audit_line now paste_url]>
            (fs_files f)).
Proof.
  unfold save_result_fs.
  change (PASTES_DIR +:+ "/" +:+ directory) with (category_dir directory).
  change (PASTES_DIR +:+ "/" +:+ file) with (audit_path file).
  change (category_dir directory +:+ "/"
          +:+ save_name (get_timestamp now) paste_id)
    with (content_path now directory paste_id).
  change (get_timestamp now +:+ " - " +:+ paste_url +:+ LF)
    with (audit_line now paste_url).
  set (f1 := snd (Os.makedirs (category_dir directory) f)). simpl.
  destruct (Os.can_open f1 (audit_path file)) eqn:Haudit.
  - rewrite append_file_ok by exact Haudit.
    set (f2 := {| fs_dirs := fs_dirs f1; fs_files := _ |}).
    assert (Hsame : Os.can_open f2 (content_path now directory paste_id)
                    = Os.can_open f1 (content_path now directory paste_id))
      by (by apply can_open_dirs).
    destruct (Os.can_open f1 (content_path now directory paste_id))
      eqn:Hcontent.
    + rewrite write_file_ok by exact Hsame.
      intros [= <-]. simpl. repeat split.
      unfold f1. by rewrite file_text_makedirs, makedirs_files.
    + rewrite write_file_refused by exact Hsame. discriminate.
  - rewrite append_file_refused by exact Haudit. discriminate.
Qed.


(** Two calls that return normally leave both audit lines in the log,
    after what it held. *)
Lemma save_result_fs_twice now1 now2 url1 url2 id1 id2 file directory
    txt1 txt2 f f1 f2 :
  save_result_fs now1 url1 id1 file directory txt1 f = (Ok tt, f1) ->
  save_result_fs now2 url2 id2 file directory txt2 f1 = (Ok tt, f2) ->
  audit_path file <> content_path now1 directory id1 ->
  audit_path file <> content_path now2 directory id2 ->
  file_text f2 (audit_path file)
  = file_text f (audit_path file)
    +:+ audit_line now1 url1 +:+ audit_line now2 url2.
Proof.
  intros (_ & _ & _ & Hfiles1)%save_result_fs_returns
         (_ & _ & _ & Hfiles2)%save_result_fs_returns Hne1 Hne2.
  assert (Hlog1 : file_text f1 (audit_path file)
                  = file_text f (audit_path file) +:+ audit_line now1 url1).
  { unfold file_text at 1. rewrite Hfiles1.
    rewrite lookup_insert_ne by (intros Heq; by apply Hne1).
    by rewrite lookup_insert_eq. }
  unfold file_text at 1. rewrite Hfiles2.
  rewrite lookup_insert_ne by (intros Heq; by apply Hne2).
  rewrite lookup_insert_eq. simpl. by rewrite Hlog1, str_app_assoc.
Qed.


(** ** read_regexes *)

(** A readable rule file is always accepted: no line, whatever its
    fields, makes the loading fail. *)
Lemma read_regexes_readable text s :
  fs_files (fs s) !! REGEXES_FILE = Some text ->
  read_regexes s = (Ok tt, set_regexes (parse_regexes text) s).
Proof.
  intros Hfile. unfold read_regexes, Os.read_file. run. by rewrite Hfile.
Qed.

(** An unreadable rule file ends the process: the error is logged and
    [SystemExit] leaves [read_regexes]. *)
Lemma read_regexes_unreadable s :
  fs_files (fs s) !! REGEXES_FILE = None ->
  read_regexes s
  = (Raise SystemExit,
     set_out (out s ++ [EvLog (REGEXES_FILE +:+ " not found or not acessible.")
                          true Red true]) s).
Proof.
  intros Hfile. unfold read_regexes, Os.read_file. run. by rewrite Hfile.
Qed.

Lemma merge_row_last2 pattern_fields label category :
  merge_row (pattern_fields ++ [label; category])
  = [PyStr.join "," pattern_fields; label; category].
Proof.
  unfold merge_row, but_last2, last2. rewrite length_app. simpl length.
  replace (length pattern_fields + 2 - 2)%nat with (length pattern_fields)
    by lia.
  by rewrite take_app_length, drop_app_length.
Qed.

(** C4: the last two comma-separated fields of a rule line are the label
    and the category, and the fields before them, joined with commas
    again, are the pattern; the two lines of the specification load as it
    says. *)
Theorem C4_rule_line_fields :
  (forall pattern_fields label category,
      merge_row (pattern_fields ++ [label; category])
      = [PyStr.join "," pattern_fields; label; category])
  /\ read_regexes (initial_state (rules_only "foo,bar.txt,dir1"))
     = (Ok tt, set_regexes [["foo"; "bar.txt"; "dir1"]]
                 (initial_state (rules_only "foo,bar.txt,dir1")))
  /\ read_regexes (initial_state (rules_only "a,b,c.txt,dir2"))
     = (Ok tt, set_regexes [["a,b"; "c.txt"; "dir2"]]
                 (initial_state (rules_only "a,b,c.txt,dir2"))).
Proof.
  split; [apply merge_row_last2 |].
  split.
  - rewrite (read_regexes_readable "foo,bar.txt,dir1")
      by (vm_compute; reflexivity).
    vm_compute. reflexivity.
  - rewrite (read_regexes_readable "a,b,c.txt,dir2")
      by (vm_compute; reflexivity).
    vm_compute. reflexivity.
Qed.

(** When the audit log can be opened and the content file cannot, the
    call raises after the audit line was written. *)
Lemma save_result_fs_content_refused now paste_url paste_id file directory
    paste_txt f :
  let f1 := snd (Os.makedirs (category_dir directory) f) in
  Os.can_open f1 (audit_path file) = true ->
  Os.can_open f1 (content_path now directory paste_id) = false ->
  save_result_fs now paste_url paste_id file directory paste_txt f
  = (Raise (Exception "OSError"),
     {| fs_dirs := fs_dirs f1;
        fs_files := <[audit_path file
                      := file_text f (audit_path file)
                         +:+ audit_line now paste_url]> (fs_files f) |}).
Proof.
  intros f1 Haudit Hcontent. unfold save_result_fs.
  change (PASTES_DIR +:+ "/" +:+ directory) with (category_dir directory).
  change (PASTES_DIR +:+ "/" +:+ file) with (audit_path file).
  change (category_dir directory +:+ "/"
          +:+ save_name (get_timestamp now) paste_id)
    with (content_path now directory paste_id).
  change (get_timestamp now +:+ " - " +:+ paste_url +:+ LF)
    with (audit_line now paste_url).
  fold f1. simpl. rewrite append_file_ok by exact Haudit.
  rewrite write_file_refused.
  - unfold f1. by rewrite file_text_makedirs, makedirs_files.
  - rewrite <- Hcontent. by apply can_open_dirs.
Qed.

(** ** Lines of the rule file *)

Lemma split_nonempty sep s : PyStr.split sep s <> [].
Proof.
  destruct s as [|c r]; simpl; [discriminate |].
  destruct (Ascii.eqb c sep); [discriminate |].
  destruct (PyStr.split sep r); discriminate.
Qed.

(** A string without the separator is its own only field. *)
Lemma split_no_sep sep s :
  PyStr.has_char sep s = false -> PyStr.split sep s = [s].
Proof.
  induction s as [|c r IH]; simpl; [reflexivity |].
  intros [Hc Hr]%orb_false_iff. rewrite Hc, (IH Hr). reflexivity.
Qed.

(** With the separator in it a string has two fields or more. *)
Lemma split_with_sep sep s :
  PyStr.has_char sep s = true -> (2 <= length (PyStr.split sep s))%nat.
Proof.
  induction s as [|c r IH]; simpl; [discriminate |].
  destruct (Ascii.eqb c sep) eqn:Hc; simpl.
  - intros _. pose proof (split_nonempty sep r).
    destruct (PyStr.split sep r); [done | simpl; lia].
  - intros Hr. specialize (IH Hr).
    destruct (PyStr.split sep r); simpl in *; lia.
Qed.

(** The fields of [a + sep + b] are the fields of [a], then those of
    [b]. *)
Lemma split_app sep a b :
  PyStr.split sep (a +:+ String sep b)
  = PyStr.split sep a ++ PyStr.split sep b.
Proof.
  induction a as [|c r IH].
  - rewrite str_app_nil_l. simpl. by rewrite Ascii.eqb_refl.
  - rewrite str_app_cons. simpl. rewrite IH.
    destruct (Ascii.eqb c sep); [reflexivity |].
    pose proof (split_nonempty sep r).
    destruct (PyStr.split sep r); [done | reflexivity].
Qed.

(** Joining the fields with the separator gives the string back. *)
Lemma join_split sep s :
  PyStr.join (String sep EmptyString) (PyStr.split sep s) = s.
Proof.
  induction s as [|c r IH]; [reflexivity |]. simpl.
  destruct (Ascii.eqb c sep) eqn:Hc.
  - apply Ascii.eqb_eq in Hc as ->.
    pose proof (split_nonempty sep r).
    destruct (PyStr.split sep r) as [|h t] eqn:Hsplit; [done |].
    change (PyStr.join (String sep EmptyString) (EmptyString :: h :: t))
      with (EmptyString +:+ String sep EmptyString
            +:+ PyStr.join (String sep EmptyString) (h :: t)).
    rewrite IH. reflexivity.
  - pose proof (split_nonempty sep r).
    destruct (PyStr.split sep r) as [|h t] eqn:Hsplit; [done |].
    destruct t as [|h2 t2].
    + simpl in *. by rewrite IH.
    + change (PyStr.join (String sep EmptyString) (String c h :: h2 :: t2))
        with (String c h +:+ String sep EmptyString
              +:+ PyStr.join (String sep EmptyString) (h2 :: t2)).
      change (PyStr.join (String sep EmptyString) (h :: h2 :: t2))
        with (h +:+ String sep EmptyString
              +:+ PyStr.join (String sep EmptyString) (h2 :: t2)) in IH.
      rewrite str_app_cons. by rewrite IH.
Qed.

Lemma merge_row_length (row : list string) :
  length (merge_row row) = S (Nat.min 2 (length row)).
Proof.
  unfold merge_row, last2. rewrite length_app, length_drop.
  cbn [length]. lia.
Qed.

Lemma Forall_map_all {A B : Type} (f : A -> B) (P : B -> Prop) (l : list A) :
  (forall x, P (f x)) -> Forall P (map f l).
Proof. intros HP. induction l; simpl; constructor; auto. Qed.

(** X1: a retained line of the rule file gives a row of three entries
    when it holds a comma and a row of two entries when it holds none;
    [read_regexes] keeps both, so every row it stores has two or three
    entries, and the rows of two are those [check_paste] cannot unpack. *)
Theorem rule_row_lengths :
  (forall line,
      length (merge_row (line_fields line))
      = if PyStr.has_char "," line then 3%nat else 2%nat)
  /\ forall text,
       Forall (fun row => length row = 2%nat \/ length row = 3%nat)
         (parse_regexes text).
Proof.
  assert (Hline : forall line,
             length (merge_row (line_fields line))
             = if PyStr.has_char "," line then 3%nat else 2%nat).
  { intros line. rewrite merge_row_length.
    unfold line_fields. rewrite length_map.
    destruct (PyStr.has_char "," line) eqn:Hcomma.
    - pose proof (split_with_sep _ _ Hcomma). lia.
    - by rewrite (split_no_sep _ _ Hcomma). }
  split; [exact Hline |].
  intros text. unfold parse_regexes. rewrite map_map.
  apply Forall_map_all. intros line.
  rewrite Hline. destruct (PyStr.has_char "," line); auto.
Qed.

(** The fields of a line [pattern,label,category] merge back into the
    pattern as it is written, the label and the category. *)
Lemma merge_row_pattern pattern label category :
  PyStr.has_char "," label = false ->
  PyStr.has_char "," category = false ->
  Forall (fun field => PyStr.strip field = field) (PyStr.split "," pattern) ->
  PyStr.strip label = label ->
  PyStr.strip category = category ->
  merge_row (line_fields (pattern +:+ "," +:+ label +:+ "," +:+ category))
  = [pattern; label; category].
Proof.
  intros Hlabel Hcategory Hfields Hl Hc. unfold line_fields.
  change (pattern +:+ "," +:+ label +:+ "," +:+ category)
    with (pattern +:+ String "," (label +:+ String "," category)).
  rewrite !split_app, (split_no_sep _ _ Hlabel), (split_no_sep _ _ Hcategory).
  rewrite !map_app. simpl. rewrite Hl, Hc.
  assert (Hsame : map PyStr.strip (PyStr.split "," pattern)
                  = PyStr.split "," pattern).
  { induction Hfields as [|f fs Hf _ IH]; [reflexivity |].
    simpl. by rewrite Hf, IH. }
  rewrite Hsame.
  change ([label] ++ [category]) with [label; category].
  rewrite merge_row_last2. by rewrite join_split.
Qed.

Lemma readlines_line line rest :
  PyStr.has_char "010" line = false ->
  PyStr.readlines (line +:+ LF +:+ rest) = (line +:+ LF) :: PyStr.readlines rest.
Proof.
  induction line as [|c r IH]; intros Hline.
  - reflexivity.
  - simpl in Hline. apply orb_false_iff in Hline as [Hc Hr].
    rewrite !str_app_cons. simpl. rewrite Hc, (IH Hr). reflexivity.
Qed.

Lemma lstrip_all_space s : all_space s = true -> PyStr.lstrip s = EmptyString.
Proof.
  induction s as [|c r IH]; simpl; [reflexivity |].
  intros [Hc Hr]%andb_true_iff. rewrite Hc. auto.
Qed.

Lemma all_space_app a b :
  all_space (a +:+ b) = all_space a && all_space b.
Proof.
  induction a as [|c r IH]; [reflexivity |].
  rewrite str_app_cons. simpl. by rewrite IH, andb_assoc.
Qed.

Lemma prefix_cons a s1 b s2 :
  String.prefix (String a s1) (String b s2)
  = if ascii_dec a b then String.prefix s1 s2 else false.
Proof. reflexivity. Qed.

(** A line starts with [#] whatever follows its first character. *)
Lemma startswith_hash_app line rest :
  PyStr.startswith "#" line = true ->
  PyStr.startswith "#" (line +:+ rest) = true.
Proof.
  unfold PyStr.startswith. destruct line as [|c r]; [discriminate |].
  rewrite str_app_cons, !prefix_cons.
  destruct (ascii_dec "#" c); [| discriminate].
  intros _. by destruct (r +:+ rest).
Qed.

(** X3: a line of the rule file that starts with [#], and a line of
    white space only, the empty line included, leave no rule: the file
    loads as if the line were not there. *)
Theorem comment_and_blank_lines_skipped line rest :
  PyStr.has_char "010" line = false ->
  PyStr.startswith "#" line = true \/ all_space line = true ->
  parse_regexes (line +:+ LF +:+ rest) = parse_regexes rest.
Proof.
  intros Hline Hskip. unfold parse_regexes.
  rewrite (readlines_line _ _ Hline). cbn [filter list_filter].
  assert (Hdropped : line_retained (line +:+ LF) = false).
  { unfold line_retained. destruct Hskip as [Hcomment | Hblank].
    - rewrite (startswith_hash_app _ _ Hcomment). by rewrite andb_false_r.
    - unfold PyStr.strip. rewrite lstrip_all_space; [reflexivity |].
      rewrite all_space_app, Hblank. reflexivity. }
  unfold filter. simpl. rewrite Hdropped. reflexivity.
Qed.

(** A line without a line feed that ends the file is its only line. *)
Lemma readlines_last line :
  PyStr.has_char "010" line = false ->
  PyStr.is_empty line = false ->
  PyStr.readlines line = [line].
Proof.
  induction line as [|c r IH]; [discriminate |].
  simpl. intros [Hc Hr]%orb_false_iff _. rewrite Hc.
  destruct r as [|d r']; [reflexivity |].
  by rewrite (IH Hr).
Qed.

Lemma rstrip_app_space a c :
  PyStr.isspace c = true ->
  PyStr.rstrip (a +:+ String c EmptyString) = PyStr.rstrip a.
Proof.
  intros Hc. induction a as [|d r IH].
  - rewrite str_app_nil_l. simpl. by rewrite Hc.
  - rewrite str_app_cons. simpl. by rewrite IH.
Qed.

(** White space at the end of a line, its line feed for one, does not
    count for [strip]. *)
Lemma strip_app_space a c :
  PyStr.isspace c = true ->
  PyStr.strip (a +:+ String c EmptyString) = PyStr.strip a.
Proof.
  intros Hc. unfold PyStr.strip. induction a as [|d r IH].
  - rewrite str_app_nil_l. simpl. by rewrite Hc.
  - rewrite str_app_cons. simpl PyStr.lstrip.
    destruct (PyStr.isspace d); [exact IH |].
    rewrite <- str_app_cons. by apply rstrip_app_space.
Qed.

Lemma strip_nonempty s :
  all_space s = false -> PyStr.is_empty (PyStr.strip s) = false.
Proof.
  unfold PyStr.strip. induction s as [|c r IH]; [discriminate |].
  simpl. destruct (PyStr.isspace c) eqn:Hc; simpl; [exact IH |].
  intros _. by rewrite Hc.
Qed.

(** A line whose pattern does not start with [#] does not either. *)
Lemma startswith_hash_pattern pattern rest :
  PyStr.startswith "#" pattern = false ->
  PyStr.startswith "#" (pattern +:+ String "," rest) = false.
Proof.
  unfold PyStr.startswith. destruct pattern as [|c r].
  - intros _. rewrite str_app_nil_l. reflexivity.
  - rewrite str_app_cons, !prefix_cons.
    destruct (ascii_dec "#" c); [| done].
    by destruct r.
Qed.

(** X2: a pattern with commas in it is kept as it is written. When the
    pattern does not start with [#], the label and the category hold no
    comma, no field has white space around it and the line holds no line
    feed, the line [pattern,label,category] of the rule file, followed by
    further lines or at the end of the file, is loaded as the row of
    exactly that pattern, label and category. *)
Theorem embedded_commas_kept pattern label category rest :
  let line := pattern +:+ "," +:+ label +:+ "," +:+ category in
  PyStr.has_char "010" line = false ->
  PyStr.startswith "#" pattern = false ->
  PyStr.has_char "," label = false ->
  PyStr.has_char "," category = false ->
  Forall (fun field => PyStr.strip field = field) (PyStr.split "," pattern) ->
  PyStr.strip label = label ->
  PyStr.strip category = category ->
  parse_regexes (line +:+ LF +:+ rest)
  = [pattern; label; category] :: parse_regexes rest
  /\ parse_regexes line = [[pattern; label; category]].
Proof.
  intros line Hline Hpattern Hlabel Hcategory Hfields Hl Hc.
  pose proof (merge_row_pattern _ _ _ Hlabel Hcategory Hfields Hl Hc) as Hrow.
  fold line in Hrow.
  assert (Hshape : line = pattern +:+ String "," (label +:+ String "," category))
    by reflexivity.
  assert (Hink : all_space line = false).
  { rewrite Hshape, all_space_app. simpl. apply andb_false_r. }
  assert (Hkept : line_retained line = true).
  { unfold line_retained. rewrite (strip_nonempty _ Hink).
    rewrite Hshape, (startswith_hash_pattern _ _ Hpattern). reflexivity. }
  assert (Hkept_lf : line_retained (line +:+ LF) = true).
  { unfold line_retained, LF.
    rewrite (strip_app_space line "010" eq_refl), (strip_nonempty _ Hink).
    rewrite Hshape, str_app_assoc, str_app_cons,
      (startswith_hash_pattern _ _ Hpattern).
    reflexivity. }
  assert (Hfields_lf : line_fields (line +:+ LF) = line_fields line).
  { unfold line_fields. rewrite Hshape.
    assert (Hcat : PyStr.has_char "," (category +:+ LF) = false).
    { rewrite has_char_app, Hcategory. reflexivity. }
    rewrite str_app_assoc, str_app_cons, str_app_assoc, str_app_cons.
    rewrite !split_app, (split_no_sep _ _ Hlabel), (split_no_sep _ _ Hcat),
      (split_no_sep _ _ Hcategory).
    rewrite !map_app. simpl. unfold LF.
    by rewrite (strip_app_space category "010" eq_refl). }
  split.
  - unfold parse_regexes. rewrite (readlines_line _ _ Hline).
    unfold filter. simpl. rewrite Hkept_lf. simpl.
    by rewrite Hfields_lf, Hrow.
  - unfold parse_regexes. rewrite (readlines_last _ Hline).
    + unfold filter. simpl. rewrite Hkept. simpl. by rewrite Hrow.
    + rewrite Hshape. by destruct pattern.
Qed.

(** ** What save_result leaves alone *)

Lemma save_result_fs_frame now paste_url paste_id file directory paste_txt f :
  let f' := snd (save_result_fs now paste_url paste_id file directory
                   paste_txt f) in
  (forall path,
      path <> audit_path file ->
      path <> content_path now directory paste_id ->
      fs_files f' !! path = fs_files f !! path)
  /\ (forall d, d ∈ fs_dirs f -> d ∈ fs_dirs f').
Proof.
  unfold save_result_fs.
  change (PASTES_DIR +:+ "/" +:+ directory) with (category_dir directory).
  change (PASTES_DIR +:+ "/" +:+ file) with (audit_path file).
  change (category_dir directory +:+ "/"
          +:+ save_name (get_timestamp now) paste_id)
    with (content_path now directory paste_id).
  set (f1 := snd (Os.makedirs (category_dir directory) f)).
  assert (Hfiles1 : fs_files f1 = fs_files f) by apply makedirs_files.
  assert (Hdirs1 : forall d, d ∈ fs_dirs f -> d ∈ fs_dirs f1)
    by (intros d; apply makedirs_dirs_mono).
  cbv zeta.
  destruct (Os.can_open f1 (audit_path file)) eqn:Haudit.
  - rewrite append_file_ok by exact Haudit.
    match goal with
    | |- context [Os.write_file ?p ?d ?g] =>
        destruct (Os.can_open g p) eqn:Hcontent;
        [rewrite (write_file_ok p d g Hcontent)
        | rewrite (write_file_refused p d g Hcontent)]
    end; simpl; (split; [| exact Hdirs1]); intros path Ha Hc.
    + rewrite !lookup_insert_ne by done. by rewrite Hfiles1.
    + rewrite lookup_insert_ne by done. by rewrite Hfiles1.
  - rewrite append_file_refused by exact Haudit. simpl.
    split; [| exact Hdirs1]. intros path _ _. by rewrite Hfiles1.
Qed.

(** X4: whether it returns or raises, [save_result] changes no file
    other than the audit log and the content file, removes no directory,
    and leaves the rules, the identifiers, the buffer, the verbosity flag
    and the console as they were. *)
Theorem save_result_touches_two_files now paste_url paste_id file directory
    paste_txt s :
  let s' := snd (save_result now paste_url paste_id file directory paste_txt
                   s) in
  (forall path,
      path <> audit_path file ->
      path <> content_path now directory paste_id ->
      fs_files (fs s') !! path = fs_files (fs s) !! path)
  /\ (forall d, d ∈ fs_dirs (fs s) -> d ∈ fs_dirs (fs s'))
  /\ s' = set_fs (fs s') s.
Proof.
  rewrite save_result_run. cbn [snd fs set_fs].
  pose proof (save_result_fs_frame now paste_url paste_id file directory
                paste_txt (fs s)) as [Hfiles Hdirs].
  repeat split; assumption.
Qed.

(** X5: whatever the time stamp and the identifier, the name of the
    content file holds no slash, so the file lies directly in the
    directory of its category. *)
Theorem content_file_in_category_dir now directory paste_id :
  (forall timestamp,
      PyStr.has_char "/" (save_name timestamp paste_id) = false)
  /\ Os.dirname (content_path now directory paste_id)
     = category_dir directory.
Proof.
  split; [intros timestamp; apply save_name_no_slash |].
  apply dirname_content_path.
Qed.

(** ** save_last_pastes *)

(** The log of the forced saves is never one of the files saved. *)
Lemma saves_log_apart now paste_id :
  audit_path "saves.txt" <> content_path now "saves" paste_id.
Proof.
  intros Heq. apply (f_equal Os.dirname) in Heq.
  rewrite dirname_content_path in Heq. vm_compute in Heq. discriminate.
Qed.

Lemma save_each_outcome clock i pastes s :
  match save_each clock i pastes s with
  | (Ok _, s') =>
      file_text (fs s') (audit_path "saves.txt")
      = file_text (fs s) (audit_path "saves.txt")
        +:+ saves_lines clock i pastes
      /\ s' = set_fs (fs s') s
  | (Raise x, s') => x = Exception "OSError" /\ s' = set_fs (fs s') s
  end.
Proof.
  revert i s. induction pastes as [|[paste_id paste_txt] rest IH]; intros i s.
  - simpl. unfold ret. split; [by rewrite str_app_nil_r | by destruct s].
  - cbn [save_each]. unfold bind. rewrite save_result_run.
    destruct (save_result_fs _ _ _ _ _ _ _) as [[[]|x] f'] eqn:Hsave;
      cbn [fst snd].
    + specialize (IH (S i) (set_fs f' s)).
      destruct (save_each clock (S i) rest (set_fs f' s)) as [[[]|x] s'].
      * destruct IH as [Hlog Hframe]. split; [| by rewrite Hframe].
        rewrite Hlog. cbn [fs set_fs saves_lines].
        apply save_result_fs_returns in Hsave as (_ & _ & _ & Hfiles).
        unfold file_text at 1. rewrite Hfiles.
        rewrite lookup_insert_ne
          by (intros Heq; by apply (saves_log_apart (clock i) paste_id)).
        rewrite lookup_insert_eq. cbn [default id].
        by rewrite str_app_assoc.
      * destruct IH as [-> Hframe]. split; [reflexivity | by rewrite Hframe].
    + apply save_result_fs_raises in Hsave as ->. done.
Qed.

(** X6: when [save_last_pastes] returns, the buffer is empty and the log
    [archive/saves.txt] holds one more line per buffered paste, in the
    order of the buffer, after what it held; when a save fails, the
    exception leaves [save_last_pastes] and the buffer is kept whole.
    Nothing but files changes in either case. *)
Theorem save_last_pastes_outcome clock s :
  match save_last_pastes clock s with
  | (Ok _, s') =>
      pastes_for_save s' = []
      /\ file_text (fs s') (audit_path "saves.txt")
         = file_text (fs s) (audit_path "saves.txt")
           +:+ saves_lines clock 0 (pastes_for_save s)
      /\ s' = set_pastes_for_save [] (set_fs (fs s') s)
  | (Raise x, s') =>
      x = Exception "OSError"
      /\ pastes_for_save s' = pastes_for_save s
      /\ s' = set_fs (fs s') s
  end.
Proof.
  unfold save_last_pastes, bind.
  pose proof (save_each_outcome clock 0 (pastes_for_save s) s) as Heach.
  destruct (save_each clock 0 (pastes_for_save s) s) as [[[]|x] s1].
  - destruct Heach as [Hlog Hframe]. cbn [pastes_for_save set_pastes_for_save fs].
    repeat split; [exact Hlog | by rewrite Hframe at 1].
  - destruct Heach as [-> Hframe]. repeat split; [| exact Hframe].
    by rewrite Hframe.
Qed.
Section CrawlerFacts.

Variable re_search : string -> string -> re_flag -> re_result.
Variable get_printable_size : nat -> string.

Local Abbreviation classify := (classify re_search).
Local Abbreviation check_paste := (check_paste re_search get_printable_size).
Local Abbreviation process_paste := (process_paste re_search get_printable_size).
Local Abbreviation for_pastes := (for_pastes re_search get_printable_size).
Local Abbreviation iteration := (iteration re_search get_printable_size).
Local Abbreviation loop := (loop re_search get_printable_size).
Local Abbreviation start := (start re_search get_printable_size).

Lemma classify_error_kind rules paste_txt x :
  classify rules paste_txt = ClassifyError x ->
  x <> KeyboardInterrupt.
Proof.
  induction rules as [|row rest IH]; simpl; [discriminate |].
  destruct row as [|regex [|file [|directory [|extra more]]]];
    try (intros [= <-]; discriminate).
  destruct (re_search regex _ IGNORECASE);
    [discriminate | exact IH | intros [= <-]; discriminate].
Qed.

Lemma same_ids_refl s : same_ids s s.
Proof. done. Qed.

Lemma same_ids_trans s1 s2 s3 :
  same_ids s1 s2 -> same_ids s2 s3 -> same_ids s1 s3.
Proof. unfold same_ids. intros (?&?&?) (?&?&?). repeat split; congruence. Qed.

Lemma check_paste_post_intro e paste_id s (r r0 : outcome bool) s' s0 logs :
  (r0, s0) = (r, s') ->
  same_ids s s0 ->
  verbose s0 = verbose s ->
  out s0 = out s ++ EvGet (PASTEBIN_URL +:+ "/raw" +:+ paste_id) :: logs ->
  (forall i, fetches i logs = 0%nat) ->
  match r0 with
  | Ok _ => pe_fetch e <> FetchInterrupted
  | Raise x => x = KeyboardInterrupt /\ pe_fetch e = FetchInterrupted
  end ->
  check_paste_post e paste_id s r s'.
Proof. intros [= <- <-] ? ? ? ? ?. unfold check_paste_post. eauto 10. Qed.

Ltac close_check_paste :=
  let H := fresh in
  intros H; eapply check_paste_post_intro;
  [ exact H
  | done
  | done
  | simpl; rewrite <- ?app_assoc; reflexivity
  | let i := fresh in intros i; autorewrite with trace; reflexivity
  | first [congruence | by split] ].

Lemma check_paste_frame e paste_id s r s' :
  check_paste e paste_id s = (r, s') -> check_paste_post e paste_id s r s'.
Proof.
  unfold check_paste, requests_get, show_paste. run.
  destruct (pe_fetch e) eqn:Hfetch; simpl; [| close_check_paste ..].
  destruct (verbose s) eqn:Hv; simpl;
    [| destruct (pe_magic e) as [d|]; simpl; [| close_check_paste]].
  all: destruct (classify (regexes s) paste_txt)
         as [regex file directory| |x] eqn:Hc; simpl.
  all: try close_check_paste.
  all: try (rewrite save_result_run;
            destruct (save_result_fs _ _ _ _ _ _ _) as [[[]|x] f'] eqn:Hs;
            simpl;
            [| apply save_result_fs_raises in Hs as ->];
            close_check_paste).
  all: apply classify_error_kind in Hc; destruct x; [done | ..];
       close_check_paste.
Qed.

(** [save_last_pastes] only writes files and empties the buffer. *)
Lemma save_each_frame clock i pastes s r s' :
  save_each clock i pastes s = (r, s') ->
  same_ids s s' /\ verbose s' = verbose s /\ out s' = out s
  /\ r <> Raise KeyboardInterrupt.
Proof.
  revert i s. induction pastes as [|[paste_id paste_txt] rest IH]; intros i s.
  - simpl. run. intros [= <- <-]. done.
  - simpl. unfold bind. rewrite save_result_run.
    destruct (save_result_fs _ _ _ _ _ _ _) as [[[]|x] f'] eqn:Hs; simpl.
    + intros (Hids & ? & ? & ?)%IH. repeat split; try done; apply Hids.
    + apply save_result_fs_raises in Hs as ->. intros [= <- <-]. done.
Qed.

Lemma save_last_pastes_frame clock s r s' :
  save_last_pastes clock s = (r, s') ->
  same_ids s s' /\ verbose s' = verbose s /\ out s' = out s
  /\ r <> Raise KeyboardInterrupt.
Proof.
  unfold save_last_pastes, bind.
  destruct (save_each clock 0 (pastes_for_save s) s) as [[[]|x] s1] eqn:He;
    apply save_each_frame in He as (Hids & ? & ? & ?); intros [= <- <-]; done.
Qed.

Lemma interrupted_frame e count s r s' :
  interrupted e count s = (r, s') -> interrupted_post count s r s'.
Proof.
  unfold interrupted. run. simpl.
  set (s1 := set_out _ (set_out _ s)).
  assert (Hs1 : same_ids s s1) by done.
  assert (Ho1 : exists logs, out s1 = out s ++ logs
                             /\ forall i, fetches i logs = 0%nat).
  { eexists. split; [simpl; by rewrite <- app_assoc |].
    intros i. by autorewrite with trace. }
  clearbody s1.
  assert (Hsave : exists r2 s2,
    (if PyStr.contains (pe_key e) "sS"
     then save_last_pastes (pe_save_now e) else fun s => (Ok tt, s)) s1
    = (r2, s2)
    /\ same_ids s1 s2 /\ out s2 = out s1 /\ r2 <> Raise KeyboardInterrupt).
  { destruct (PyStr.contains (pe_key e) "sS").
    - destruct (save_last_pastes _ s1) as [r2 s2] eqn:Hl.
      apply save_last_pastes_frame in Hl as (? & ? & ? & ?). eauto 10.
    - eexists _, _. done. }
  destruct Hsave as (r2 & s2 & -> & Hs2 & Ho2 & Hr2).
  destruct Ho1 as (logs & Ho1 & Hlogs).
  assert (Hpost : forall r0 s0, same_ids s2 s0 -> out s0 = out s2 ->
            (forall c, r0 = Ok c -> c = count) ->
            (r0, s0) = (r, s') -> interrupted_post count s r s').
  { intros r0 s0 Hs0 Ho0 Hc [= <- <-]. split; [| split; [| done]].
    - eauto using same_ids_trans.
    - exists logs. split; [congruence | done]. }
  destruct r2 as [[]|x]; [| intros H; eapply Hpost; [..| exact H]; done].
  destruct (PyStr.contains (pe_key e) "vV"), (PyStr.contains (pe_key e) "qQ");
    simpl; intros H; (eapply Hpost; [..| exact H]); try done.
  all: intros c [= <-]; done.
Qed.

Lemma process_paste_frame cfg paste_id e count s r s' :
  process_paste cfg (paste_id, e) count s = (r, s') ->
  process_paste_post cfg paste_id e count s r s'.
Proof.
  unfold process_paste, process_paste_post, is_new. run. simpl.
  destruct (bool_decide (paste_id ∈ prev_checked_ids s)) eqn:Hseen; simpl.
  { intros [= <- <-]. simpl. repeat split; try done.
    exists []. split; [by rewrite app_nil_r | done]. }
  destruct (check_paste e paste_id _) as [r1 s1] eqn:Hcheck.
  apply check_paste_frame in Hcheck
    as ((Hre & Hprev & Hnew) & Hv & (logs & Hout & Hlogs) & Hr1).
  simpl in Hre, Hprev, Hnew, Hout.
  assert (Hint : forall s2 logs2,
    same_ids s1 s2 -> out s2 = out s1 ++ logs2 ->
    (forall i, fetches i logs2 = 0%nat) ->
    (pe_fetch e = FetchInterrupted \/ pe_sleep_interrupted e = true) ->
    interrupted e count s2 = (r, s') ->
    regexes s' = regexes s
    /\ prev_checked_ids s' = prev_checked_ids s
    /\ new_checked_ids s' = new_checked_ids s ++ [paste_id]
    /\ (exists delta,
          out s' = out s ++ delta
          /\ forall i, fetches i delta
                       = if true && bool_decide (paste_id = i)
                         then 1%nat else 0%nat)
    /\ (pe_fetch e <> FetchInterrupted ->
        pe_sleep_interrupted e = false ->
        pynum_negative (delay cfg) = false ->
        r = Ok (count + 1)%Z)).
  { intros s2 logs2 (Hre2 & Hprev2 & Hnew2) Hout2 Hlogs2 Hwhy
      ((Hre3 & Hprev3 & Hnew3) & (logs3 & Hout3 & Hlogs3) & _)%interrupted_frame.
    repeat split; try congruence.
    - eexists. split.
      + rewrite Hout3, Hout2, Hout, <- !app_assoc. reflexivity.
      + intros i. simpl. autorewrite with trace.
        rewrite Hlogs, Hlogs2, Hlogs3. by case_bool_decide.
    - intros ? ?. destruct Hwhy; congruence. }
  destruct r1 as [b|x].
  - unfold sleep_delay.
    destruct (pynum_negative (delay cfg)) eqn:Hneg; simpl.
    { run. intros [= <- <-]. repeat split; try congruence.
      eexists. split; [exact Hout |].
      intros i. simpl. autorewrite with trace. rewrite Hlogs.
      by case_bool_decide. }
    destruct (pe_sleep_interrupted e) eqn:Hsl; simpl.
    + run. apply (Hint s1 []); auto using same_ids_refl.
      by rewrite app_nil_r.
    + run. simpl. intros [= <- <-]. simpl. repeat split; try congruence.
      eexists. split; [rewrite Hout, <- app_assoc; reflexivity |].
      intros i. simpl. autorewrite with trace. rewrite Hlogs.
      by case_bool_decide.
  - destruct Hr1 as [-> Hfetch].
    apply (Hint s1 []); auto using same_ids_refl. by rewrite app_nil_r.
Qed.

Lemma occurrences_cons i x ids :
  occurrences i (x :: ids)
  = ((if bool_decide (x = i) then 1 else 0) + occurrences i ids)%nat.
Proof.
  unfold occurrences. case_bool_decide.
  - by rewrite filter_cons_True.
  - by rewrite filter_cons_False.
Qed.

Lemma for_pastes_cons cfg entry rest count s :
  for_pastes cfg (entry :: rest) count s
  = match process_paste cfg entry count s with
    | (Ok c, s1) => for_pastes cfg rest c s1
    | (Raise x, s1) => (Raise x, s1)
    end.
Proof. reflexivity. Qed.

Lemma for_pastes_frame cfg pastes count s r s' :
  for_pastes cfg pastes count s = (r, s') ->
  regexes s' = regexes s
  /\ prev_checked_ids s' = prev_checked_ids s
  /\ (forall c, r = Ok c ->
      new_checked_ids s' = new_checked_ids s ++ map fst pastes
      /\ exists delta,
          out s' = out s ++ delta
          /\ forall i, fetches i delta
                       = if is_new s i then occurrences i (map fst pastes)
                         else 0%nat)
  /\ (uninterrupted pastes ->
      pynum_negative (delay cfg) = false ->
      r = Ok (count + Z.of_nat (length pastes))%Z).
Proof.
  revert count s. induction pastes as [|[paste_id e] rest IH]; intros count s.
  - simpl. run. intros [= <- <-]. repeat split; try done.
    + by rewrite app_nil_r.
    + exists []. split; [by rewrite app_nil_r |].
      intros i. by destruct (is_new s i).
    + intros _ _. f_equal. simpl. lia.
  - rewrite for_pastes_cons.
    destruct (process_paste cfg (paste_id, e) count s) as [r1 s1] eqn:Hp.
    apply process_paste_frame in Hp
      as (Hre & Hprev & Hnew & (delta & Hout & Hdelta) & Hok).
    destruct r1 as [c1|x].
    + intros (Hre2 & Hprev2 & Hrest & Hok2)%IH.
      split; [congruence |]. split; [congruence |]. split.
      * intros c Hc. destruct (Hrest c Hc) as (Hnew2 & delta2 & Hout2 & Hdelta2).
        split; [rewrite Hnew2, Hnew, <- app_assoc; reflexivity |].
        exists (delta ++ delta2).
        split; [rewrite Hout2, Hout, <- app_assoc; reflexivity |].
        intros i. rewrite fetches_app, Hdelta, Hdelta2. simpl.
        rewrite occurrences_cons.
        assert (Hsame : forall j, is_new s1 j = is_new s j)
          by (intros j; unfold is_new; by rewrite Hprev).
        rewrite Hsame.
        case_bool_decide as Hid; [subst i |];
          destruct (is_new s paste_id) eqn:E1; simpl; try done;
          destruct (is_new s i); done.
      * intros [[Hf Hs] Huninterrupted]%Forall_cons Hdelay. simpl in Hf, Hs.
        specialize (Hok Hf Hs Hdelay) as [= ->].
        rewrite (Hok2 Huninterrupted Hdelay). f_equal. simpl length. lia.
    + intros [= <- <-]. split; [done |]. split; [done |]. split; [done |].
      intros [[Hf Hs] _]%Forall_cons Hdelay. simpl in Hf, Hs.
      by specialize (Hok Hf Hs Hdelay).
Qed.

(** ** Classification *)

Lemma classify_prefix rows a b :
  PyStr.take 1024 a = PyStr.take 1024 b -> classify rows a = classify rows b.
Proof.
  intros Hprefix. induction rows as [|row rest IH]; simpl; [reflexivity |].
  destruct row as [|regex [|file [|directory [|extra more]]]]; try reflexivity.
  rewrite Hprefix, IH. reflexivity.
Qed.

(** C3, amended: for a rule set whose patterns the engine accepts, the
    rule found for a body is the first rule, in the order of the rule
    set, whose pattern the engine finds (called with [IGNORECASE]) in the
    first 1024 characters of the body, and none when no pattern is found
    there; the result is a function of the rule set and of that prefix
    alone. *)
Theorem C3_first_match_in_prefix (rules : list rule) (paste_txt : string) :
  Forall (fun r => re_search (rule_pattern r) (PyStr.take 1024 paste_txt)
                     IGNORECASE <> ReError) rules ->
  classify (map rule_row rules) paste_txt
  = classification_of (first_match re_search rules paste_txt)
  /\ forall other,
       PyStr.take 1024 other = PyStr.take 1024 paste_txt ->
       classify (map rule_row rules) other
       = classify (map rule_row rules) paste_txt.
Proof.
  intros Hvalid. split; [| intros other; apply classify_prefix].
  induction Hvalid as [|[[regex file] directory] rest Hrule _ IH];
    [reflexivity |].
  simpl in Hrule. simpl. unfold rule_matches. simpl.
  destruct (re_search regex (PyStr.take 1024 paste_txt) IGNORECASE);
    [reflexivity | exact IH | done].
Qed.

(** ** check_paste on a body that matches a rule *)

Lemma check_paste_matched e paste_id s paste_txt regex file directory :
  pe_fetch e = Fetched paste_txt ->
  displayable (verbose s) e ->
  classify (regexes s) paste_txt = Matched regex file directory ->
  let paste_url := PASTEBIN_URL +:+ "/raw" +:+ paste_id in
  let seen := out s ++ EvGet paste_url
                :: display_lines get_printable_size (verbose s) e paste_txt
                ++ [EvLog ("Found a matching paste: " +:+ paste_url
                           +:+ " (" +:+ file +:+ ")") true Cyan true] in
  check_paste e paste_id s
  = match save_result_fs (pe_now e) paste_url paste_id file directory
            paste_txt (fs s) with
    | (Ok _, f') => (Ok true, set_fs f' (set_out seen s))
    | (Raise _, f') =>
        (Ok false,
         set_fs f'
           (set_out (seen ++ [EvLog "Error reading paste (probably a 404 or encoding issue)."
                                true Yellow true]) s))
    end.
Proof.
  intros Hfetch Hshow Hmatch paste_url seen. subst seen.
  unfold check_paste, requests_get, show_paste, display_lines. run.
  fold paste_url. rewrite Hfetch. simpl.
  destruct (verbose s) eqn:Hv; simpl.
  - rewrite Hmatch. simpl. rewrite save_result_run.
    destruct (save_result_fs _ _ _ _ _ _ _) as [[[]|x] f'] eqn:Hsave; simpl.
    + by rewrite <- !app_assoc.
    + apply save_result_fs_raises in Hsave as ->. simpl.
      by rewrite <- !app_assoc.
  - destruct Hshow as [? | [description Hmagic]]; [done |].
    rewrite Hmagic. simpl. rewrite Hmatch. simpl.
    rewrite save_result_run.
    destruct (save_result_fs _ _ _ _ _ _ _) as [[[]|x] f'] eqn:Hsave; simpl.
    + by rewrite <- !app_assoc.
    + apply save_result_fs_raises in Hsave as ->. simpl.
      by rewrite <- !app_assoc.
Qed.

(** C10: [save_result] appends the audit line before it creates the
    content file. When the audit log can be opened and the content file
    cannot, [save_result] raises with the line already in the log and no
    content file written, and [check_paste] returns [False] for the
    paste. *)
Theorem C10_audit_line_survives_failed_save e paste_id s paste_txt regex file
    directory :
  let paste_url := PASTEBIN_URL +:+ "/raw" +:+ paste_id in
  let f1 := snd (Os.makedirs (category_dir directory) (fs s)) in
  pe_fetch e = Fetched paste_txt ->
  displayable (verbose s) e ->
  classify (regexes s) paste_txt = Matched regex file directory ->
  Os.can_open f1 (audit_path file) = true ->
  Os.can_open f1 (content_path (pe_now e) directory paste_id) = false ->
  exists s',
    check_paste e paste_id s = (Ok false, s')
    /\ save_result (pe_now e) paste_url paste_id file directory paste_txt s
       = (Raise (Exception "OSError"), set_fs (fs s') s)
    /\ file_text (fs s') (audit_path file)
       = file_text (fs s) (audit_path file)
         +:+ audit_line (pe_now e) paste_url
    /\ fs_files (fs s') !! content_path (pe_now e) directory paste_id
       = fs_files (fs s) !! content_path (pe_now e) directory paste_id
    /\ pastes_for_save s' = pastes_for_save s.
Proof.
  intros paste_url f1 Hfetch Hshow Hmatch Haudit Hcontent.
  pose proof (save_result_fs_content_refused (pe_now e) paste_url paste_id
                file directory paste_txt (fs s) Haudit Hcontent) as Hsave.
  fold f1 in Hsave.
  rewrite (check_paste_matched _ _ _ _ _ _ _ Hfetch Hshow Hmatch).
  fold paste_url. rewrite save_result_run, Hsave. simpl.
  eexists. split; [reflexivity |]. simpl. split; [reflexivity |].
  assert (Hne : audit_path file <> content_path (pe_now e) directory paste_id).
  { intros Heq. rewrite Heq in Haudit. congruence. }
  split; [| split; [| reflexivity]].
  - unfold file_text at 1. simpl. by rewrite lookup_insert_eq.
  - by rewrite lookup_insert_ne.
Qed.

(** ** One turn of the loop *)

Lemma commit_ids_run cfg count s :
  commit_ids cfg count s
  = (Ok (if flush_due cfg count then 0 else count)%Z, committed cfg count s).
Proof.
  unfold commit_ids, committed, flush_due. run.
  by destruct (count =? flush_after_x_refreshes cfg)%Z.
Qed.

(** A cycle whose poll succeeds: the listing is gone through, the
    identifiers are committed, and the crawler waits for the next
    refresh. *)
Lemma iteration_listing cfg r count s pastes :
  r_page r = Listing pastes ->
  iteration cfg r count s
  = match for_pastes cfg pastes count (polled s) with
    | (Ok c_end, s_mid) =>
        (Ok (if flush_due cfg c_end then 0 else c_end)%Z,
         set_out (out s_mid ++ refresh_wait cfg (r_elapsed r))
           (committed cfg c_end s_mid))
    | (Raise x, s_mid) => (Raise x, s_mid)
    end.
Proof.
  intros Hpage. unfold iteration, get_pastes. rewrite Hpage.
  unfold bind at 1. unfold bind at 1. unfold Logger.log, emit, ret.
  unfold bind at 1. unfold bind at 1. fold (polled s).
  change (OK =? OK)%Z with true. cbv iota.
  unfold bind at 1.
  destruct (for_pastes cfg pastes count (polled s)) as [[c_end|x] s_mid];
    [| reflexivity].
  unfold bind at 1. rewrite commit_ids_run.
  unfold refresh_wait.
  generalize (sleep_time cfg (r_elapsed r)). intros t.
  destruct (0 <? t)%Z eqn:Ht.
  - unfold format1, format_d, time_sleep, pynum_negative. run.
    assert (Hneg : (t <? 0)%Z = false) by lia. rewrite Hneg. simpl.
    by rewrite <- app_assoc.
  - run. simpl. rewrite app_nil_r. by destruct s_mid.
Qed.

(** C7: a request that fails is logged and the paste skipped, with
    nothing else changed; and whatever the requests of a cycle answer,
    short of Ctrl-C, the cycle ends as a successful one and every listed
    identifier is among the checked identifiers afterwards. *)
Theorem C7_fetch_failure_not_fatal cfg r count s pastes :
  r_page r = Listing pastes ->
  uninterrupted pastes ->
  pynum_negative (delay cfg) = false ->
  (forall e paste_id s0,
      pe_fetch e = FetchFailed ->
      check_paste e paste_id s0
      = (Ok false,
         set_out (out s0
                  ++ [EvGet (PASTEBIN_URL +:+ "/raw" +:+ paste_id);
                      EvLog "Error reading paste (probably a 404 or encoding issue)."
                        true Yellow true]) s0))
  /\ exists c' s',
       iteration cfg r count s = (Ok c', s')
       /\ forall paste_id,
            paste_id ∈ map fst pastes -> is_new s' paste_id = false.
Proof.
  intros Hpage Hquiet Hdelay. split.
  - intros e paste_id s0 Hfetch.
    unfold check_paste, requests_get. run. rewrite Hfetch. simpl.
    by rewrite <- app_assoc.
  - rewrite (iteration_listing _ _ _ _ _ Hpage).
    destruct (for_pastes cfg pastes count (polled s)) as [r1 s_mid] eqn:Hfor.
    apply for_pastes_frame in Hfor as (_ & _ & Hlisted & Hok).
    specialize (Hok Hquiet Hdelay). subst r1.
    destruct (Hlisted _ eq_refl) as (Hnew & _).
    eexists _, _. split; [reflexivity |].
    intros paste_id Hin. unfold is_new, committed. simpl.
    rewrite bool_decide_eq_true_2; [reflexivity |].
    rewrite Hnew.
    destruct (flush_due cfg _); rewrite !elem_of_app; auto.
Qed.

(** C8, amended: whenever the display of the paste completes, the two
    settings of the verbosity flag give [check_paste] the same result,
    the same files and audit lines, the same buffer of unmatched pastes
    and the same identifiers. *)
Theorem C8_verbosity_only_display e paste_id s :
  is_Some (pe_magic e) ->
  let silent_run := check_paste e paste_id (set_verbose true s) in
  let shown_run := check_paste e paste_id (set_verbose false s) in
  fst silent_run = fst shown_run
  /\ fs (snd silent_run) = fs (snd shown_run)
  /\ pastes_for_save (snd silent_run) = pastes_for_save (snd shown_run)
  /\ prev_checked_ids (snd silent_run) = prev_checked_ids (snd shown_run)
  /\ new_checked_ids (snd silent_run) = new_checked_ids (snd shown_run).
Proof.
  intros [description Hmagic]. cbv zeta.
  unfold check_paste, requests_get, show_paste. run. rewrite Hmagic.
  destruct (pe_fetch e) as [paste_txt| |]; simpl; [| done ..].
  destruct (classify (regexes s) paste_txt) as [regex file directory| |x];
    simpl; [| done |].
  - rewrite !save_result_run.
    destruct (save_result_fs _ _ _ _ _ _ _) as [[[]|[| |name]] f']; simpl;
      repeat split; reflexivity.
  - destruct x; simpl; repeat split; reflexivity.
Qed.

(** C1, amended: every identifier listed in a successful cycle is
    reported not-new by the state the cycle leaves, and the cycle that
    follows makes no request for it; a cycle that does not flush keeps
    every identifier that was seen. The flush happens at the end of a
    cycle exactly when the counter then equals [flush_after_x_refreshes]:
    the seen identifiers become exactly those listed in that cycle, all
    others are new again, and the counter is reset to 0. *)
Theorem C1_seen_until_flush cfg r count s pastes c' s' :
  r_page r = Listing pastes ->
  new_checked_ids s = [] ->
  iteration cfg r count s = (Ok c', s') ->
  exists c_end s_mid,
    for_pastes cfg pastes count (polled s) = (Ok c_end, s_mid)
    /\ new_checked_ids s' = []
    /\ (forall paste_id,
          paste_id ∈ map fst pastes -> is_new s' paste_id = false)
    /\ (if flush_due cfg c_end
        then c' = 0%Z
             /\ prev_checked_ids s' = map fst pastes
             /\ forall paste_id,
                  paste_id ∉ map fst pastes -> is_new s' paste_id = true
        else c' = c_end
             /\ prev_checked_ids s' = prev_checked_ids s ++ map fst pastes
             /\ forall paste_id,
                  is_new s paste_id = false -> is_new s' paste_id = false)
    /\ (forall pastes_next c_next s_next,
          for_pastes cfg pastes_next c' (polled s') = (Ok c_next, s_next) ->
          exists requests,
            out s_next = out (polled s') ++ requests
            /\ forall paste_id,
                 paste_id ∈ map fst pastes ->
                 fetches paste_id requests = 0%nat).
Proof.
  intros Hpage Hempty. rewrite (iteration_listing _ _ _ _ _ Hpage).
  destruct (for_pastes cfg pastes count (polled s)) as [[c_end|x] s_mid]
    eqn:Hfor; [| discriminate].
  intros [= <- <-]. exists c_end, s_mid. split; [reflexivity |].
  apply for_pastes_frame in Hfor as (_ & Hprev & Hlisted & _).
  destruct (Hlisted _ eq_refl) as (Hnew & _).
  simpl in Hprev, Hnew. rewrite Hempty in Hnew. simpl in Hnew.
  set (s_end := set_out _ (committed cfg c_end s_mid)).
  assert (Hseen : forall paste_id,
             paste_id ∈ map fst pastes -> is_new s_end paste_id = false).
  { intros paste_id Hin. unfold is_new, s_end, committed. simpl.
    rewrite Hprev, Hnew. rewrite bool_decide_eq_true_2; [reflexivity |].
    destruct (flush_due cfg c_end); rewrite ?elem_of_app; auto. }
  split; [reflexivity |]. split; [exact Hseen |]. split.
  - unfold is_new, s_end, committed. simpl. rewrite Hprev, Hnew.
    destruct (flush_due cfg c_end).
    + repeat split. intros paste_id Hout.
      by rewrite bool_decide_eq_false_2.
    + repeat split. intros paste_id Hold.
      apply negb_false_iff, bool_decide_eq_true in Hold.
      rewrite bool_decide_eq_true_2; [reflexivity |].
      rewrite elem_of_app. auto.
  - intros pastes_next c_next s_next Hnext.
    apply for_pastes_frame in Hnext as (_ & _ & Hlisted_next & _).
    destruct (Hlisted_next _ eq_refl) as (_ & requests & Hout & Hfetches).
    exists requests. split; [exact Hout |].
    intros paste_id Hin. rewrite Hfetches.
    assert (Hpolled : is_new (polled s_end) paste_id = is_new s_end paste_id)
      by reflexivity.
    by rewrite Hpolled, (Hseen _ Hin).
Qed.

(** ** A listed identifier whose body matches *)

Lemma process_paste_matched cfg paste_id e count s paste_txt regex file
    directory f' :
  let paste_url := PASTEBIN_URL +:+ "/raw" +:+ paste_id in
  is_new s paste_id = true ->
  pe_fetch e = Fetched paste_txt ->
  displayable (verbose s) e ->
  classify (regexes s) paste_txt = Matched regex file directory ->
  pe_sleep_interrupted e = false ->
  pynum_negative (delay cfg) = false ->
  save_result_fs (pe_now e) paste_url paste_id file directory paste_txt (fs s)
  = (Ok tt, f') ->
  process_paste cfg (paste_id, e) count s
  = (Ok (count + 1)%Z,
     set_fs f'
       (set_out
          (out s ++ EvGet paste_url
             :: display_lines get_printable_size (verbose s) e paste_txt
             ++ [EvLog ("Found a matching paste: " +:+ paste_url
                        +:+ " (" +:+ file +:+ ")") true Cyan true;
                 EvSleep (delay cfg)])
          (set_new_checked_ids (new_checked_ids s ++ [paste_id]) s))).
Proof.
  intros paste_url Hnew Hfetch Hshow Hmatch Hsleep Hdelay Hsave.
  unfold is_new in Hnew. apply negb_true_iff in Hnew.
  unfold process_paste, on_interrupt, bind, ret.
  cbn [prev_checked_ids set_new_checked_ids]. rewrite Hnew. cbn [negb].
  rewrite (check_paste_matched e paste_id
             (set_new_checked_ids (new_checked_ids s ++ [paste_id]) s)
             paste_txt regex file directory Hfetch Hshow Hmatch).
  fold paste_url. cbn [fs set_new_checked_ids]. rewrite Hsave.
  unfold sleep_delay. rewrite Hdelay, Hsleep. unfold emit. simpl.
  f_equal. unfold set_out, set_fs, set_new_checked_ids. simpl. f_equal.
  rewrite <- app_assoc. simpl. by rewrite <- app_assoc.
Qed.

(** C9: whether an identifier is new is decided against the identifiers
    committed by earlier cycles only. An identifier that is not among
    them and is listed twice in one cycle is requested twice, classified
    twice and, its body matching a rule both times, saved twice: the
    audit log of the rule gets two lines. *)
Theorem C9_listed_twice_processed_twice cfg paste_id e1 e2 txt1 txt2 regex
    file directory count s f1 f2 :
  let paste_url := PASTEBIN_URL +:+ "/raw" +:+ paste_id in
  is_new s paste_id = true ->
  pe_fetch e1 = Fetched txt1 ->
  pe_fetch e2 = Fetched txt2 ->
  displayable (verbose s) e1 ->
  displayable (verbose s) e2 ->
  classify (regexes s) txt1 = Matched regex file directory ->
  classify (regexes s) txt2 = Matched regex file directory ->
  pe_sleep_interrupted e1 = false ->
  pe_sleep_interrupted e2 = false ->
  pynum_negative (delay cfg) = false ->
  save_result_fs (pe_now e1) paste_url paste_id file directory txt1 (fs s)
  = (Ok tt, f1) ->
  save_result_fs (pe_now e2) paste_url paste_id file directory txt2 f1
  = (Ok tt, f2) ->
  audit_path file <> content_path (pe_now e1) directory paste_id ->
  audit_path file <> content_path (pe_now e2) directory paste_id ->
  exists s' delta,
    for_pastes cfg [(paste_id, e1); (paste_id, e2)] count s
    = (Ok (count + 2)%Z, s')
    /\ out s' = out s ++ delta
    /\ fetches paste_id delta = 2%nat
    /\ new_checked_ids s' = new_checked_ids s ++ [paste_id; paste_id]
    /\ fs s' = f2
    /\ file_text (fs s') (audit_path file)
       = file_text (fs s) (audit_path file)
         +:+ audit_line (pe_now e1) paste_url
         +:+ audit_line (pe_now e2) paste_url.
Proof.
  intros paste_url Hnew Hf1 Hf2 Hd1 Hd2 Hm1 Hm2 Hs1 Hs2 Hdelay Hsave1 Hsave2
    Hne1 Hne2.
  rewrite for_pastes_cons.
  rewrite (process_paste_matched cfg paste_id e1 count s txt1 regex file
             directory f1 Hnew Hf1 Hd1 Hm1 Hs1 Hdelay Hsave1).
  rewrite for_pastes_cons.
  match goal with
  | |- context [process_paste _ _ _ ?st] => set (s1 := st)
  end.
  rewrite (process_paste_matched cfg paste_id e2 (count + 1) s1 txt2 regex
             file directory f2 Hnew Hf2 Hd2 Hm2 Hs2 Hdelay Hsave2).
  subst s1. replace (count + 1 + 1)%Z with (count + 2)%Z by lia.
  eexists _, _. split; [reflexivity |].
  split; [simpl; rewrite <- app_assoc; reflexivity |].
  split.
  { fold paste_url. unfold paste_url. autorewrite with trace.
    assert (Hshown : forall b e t,
              fetches paste_id (display_lines get_printable_size b e t)
              = 0%nat).
    { intros b e t. unfold display_lines.
      destruct b; [done |]. destruct (pe_magic e); [| done].
      by autorewrite with trace. }
    rewrite !Hshown. by rewrite bool_decide_eq_true_2. }
  split; [simpl; by rewrite <- app_assoc |].
  split; [reflexivity |].
  simpl. exact (save_result_fs_twice _ _ _ _ _ _ _ _ _ _ _ _ _
                  Hsave1 Hsave2 Hne1 Hne2).
Qed.

(** ** The waits after a failed poll *)

(** With an integer [connection_timeout] that is not negative the loop
    logs the wait and sleeps that long. *)
Lemma iteration_connection_down cfg r count s t :
  r_page r = ConnectionDown ->
  connection_timeout cfg = PyInt t ->
  (0 <= t)%Z ->
  iteration cfg r count s
  = (Ok count,
     set_out (out (polled s)
              ++ [EvLog ("Connection down. Waiting " +:+ pretty t
                         +:+ " seconds and trying again") true Red true;
                  EvSleep (PyInt t)]) (polled s)).
Proof.
  intros Hpage Htimeout Ht. unfold iteration, get_pastes. rewrite Hpage.
  unfold bind at 1. unfold bind at 1. unfold Logger.log, emit, ret.
  unfold bind at 1. unfold bind at 1. fold (polled s).
  change (CONNECTION_FAIL =? OK)%Z with false.
  change (CONNECTION_FAIL =? ACCESS_DENIED)%Z with false.
  change (CONNECTION_FAIL =? CONNECTION_FAIL)%Z with true. cbv iota.
  rewrite Htimeout. unfold format1, format_d, time_sleep, pynum_negative.
  assert (Hneg : (t <? 0)%Z = false) by lia. rewrite Hneg.
  unfold bind, ret, emit. simpl. by rewrite <- app_assoc.
Qed.

(** With a [connection_timeout] that is a float the message cannot be
    formatted: [ValueError] leaves the loop before any sleep. *)
Lemma iteration_connection_down_float cfg r count s q :
  r_page r = ConnectionDown ->
  connection_timeout cfg = PyFloat q ->
  iteration cfg r count s = (Raise (Exception "ValueError"), polled s).
Proof.
  intros Hpage Htimeout. unfold iteration, get_pastes. rewrite Hpage.
  unfold bind at 1. unfold bind at 1. unfold Logger.log, emit, ret.
  unfold bind at 1. unfold bind at 1. fold (polled s).
  change (CONNECTION_FAIL =? OK)%Z with false.
  change (CONNECTION_FAIL =? ACCESS_DENIED)%Z with false.
  change (CONNECTION_FAIL =? CONNECTION_FAIL)%Z with true. cbv iota.
  rewrite Htimeout. reflexivity.
Qed.

(** * Further properties of the methods *)

(** ** check_paste *)


(** X8: [check_paste] returns [True] exactly when the body arrived, its
    display was skipped or completed, a rule matched and [save_result]
    returned normally. *)
Theorem check_paste_true_iff_saved e paste_id s :
  fst (check_paste e paste_id s) = Ok true
  <-> exists paste_txt regex file directory,
        pe_fetch e = Fetched paste_txt
        /\ displayable (verbose s) e
        /\ classify (regexes s) paste_txt = Matched regex file directory
        /\ fst (save_result_fs (pe_now e)
                  (PASTEBIN_URL +:+ "/raw" +:+ paste_id) paste_id file
                  directory paste_txt (fs s)) = Ok tt.
Proof.
  split.
  - unfold check_paste, requests_get, show_paste, displayable. run.
    destruct (pe_fetch e) as [paste_txt| |]; simpl; [| discriminate ..].
    destruct (verbose s) eqn:Hv; simpl;
      [| destruct (pe_magic e) as [d|] eqn:Hmagic; simpl; [| discriminate]].
    all: destruct (classify (regexes s) paste_txt)
           as [regex file directory| |x] eqn:Hc; simpl;
         [| discriminate | destruct x; discriminate].
    all: rewrite save_result_run;
         destruct (save_result_fs _ _ _ _ _ _ _) as [[[]|x] f'] eqn:Hsave;
         simpl; [| destruct x; discriminate].
    all: intros _; exists paste_txt, regex, file, directory.
    all: cbn [fs set_out] in Hsave; rewrite Hsave; repeat split; eauto.
  - intros (paste_txt & regex & file & directory & Hfetch & Hshow & Hmatch
            & Hsave).
    rewrite (check_paste_matched _ _ _ _ _ _ _ Hfetch Hshow Hmatch).
    destruct (save_result_fs _ _ _ _ _ _ _) as [[[]|x] f'];
      [reflexivity | discriminate].
Qed.

(** ** The loop over the listing *)

(** X9: whatever happens while a listed identifier is processed, the
    answer of the request, Ctrl-C, the key pressed at the prompt, a save
    that fails, the identifier is appended to [new_checked_ids], and
    neither the identifiers of earlier cycles nor the rules change. *)
Theorem process_paste_records_identifier cfg paste_id e count s :
  let s' := snd (process_paste cfg (paste_id, e) count s) in
  new_checked_ids s' = new_checked_ids s ++ [paste_id]
  /\ prev_checked_ids s' = prev_checked_ids s
  /\ regexes s' = regexes s.
Proof.
  destruct (process_paste cfg (paste_id, e) count s) as [r s'] eqn:Hrun.
  apply process_paste_frame in Hrun as (? & ? & ? & _). simpl. auto.
Qed.

(** X10: in a cycle that reaches its end, an identifier committed by an
    earlier cycle is never requested, and an identifier that is not is
    requested once for each time it is listed. *)
Theorem requests_of_a_cycle cfg pastes count s c s' :
  for_pastes cfg pastes count s = (Ok c, s') ->
  exists delta,
    out s' = out s ++ delta
    /\ forall paste_id,
         fetches paste_id delta
         = if is_new s paste_id then occurrences paste_id (map fst pastes)
           else 0%nat.
Proof.
  intros (_ & _ & Hlisted & _)%for_pastes_frame.
  destruct (Hlisted _ eq_refl) as (_ & delta & Hout & Hfetches). eauto.
Qed.

(** X11: the counter that is compared with [flush_after_x_refreshes]
    advances by one for every listed paste, new or not, so that a cycle
    without Ctrl-C adds the length of its listing to it; the cycle then
    returns 0 when the sum equals [flush_after_x_refreshes], and the sum
    otherwise. *)
Theorem counter_counts_listed_pastes cfg r pastes count s :
  r_page r = Listing pastes ->
  uninterrupted pastes ->
  pynum_negative (delay cfg) = false ->
  fst (for_pastes cfg pastes count s)
  = Ok (count + Z.of_nat (length pastes))%Z
  /\ fst (iteration cfg r count s)
     = Ok (if flush_due cfg (count + Z.of_nat (length pastes))
           then 0 else count + Z.of_nat (length pastes))%Z.
Proof.
  intros Hpage Hquiet Hdelay.
  assert (Hcount : forall s0,
             fst (for_pastes cfg pastes count s0)
             = Ok (count + Z.of_nat (length pastes))%Z).
  { intros s0. destruct (for_pastes cfg pastes count s0) as [r0 s1] eqn:Hrun.
    apply for_pastes_frame in Hrun as (_ & _ & _ & Hok). simpl. auto. }
  split; [apply Hcount |].
  rewrite (iteration_listing _ _ _ _ _ Hpage).
  specialize (Hcount (polled s)).
  destruct (for_pastes cfg pastes count (polled s)) as [[c|x] s1];
    simpl in Hcount; [| discriminate].
  injection Hcount as ->. reflexivity.
Qed.

(** ** The waits after a failed poll *)

Lemma ban_countdown_run m k s :
  ban_countdown (k + Z.of_nat m) (seqZ k (Z.of_nat m)) s
  = (Ok tt, set_out (out s ++ countdown m) s).
Proof.
  revert k s. induction m as [|m IH]; intros k s.
  - simpl. unfold ret. rewrite app_nil_r. by destruct s.
  - rewrite seqZ_cons by lia.
    replace (Z.pred (Z.of_nat (S m))) with (Z.of_nat m) by lia.
    cbn [ban_countdown].
    replace (k + Z.of_nat (S m) - k)%Z with (Z.of_nat (S m)) by lia.
    replace (k + Z.of_nat (S m))%Z with (Z.succ k + Z.of_nat m)%Z by lia.
    unfold bind at 1. unfold Logger.log, emit.
    unfold bind at 1. unfold time_sleep. cbn [pynum_negative].
    change (60 <? 0)%Z with false. cbv iota. unfold emit.
    rewrite IH. cbn [out set_out countdown]. f_equal.
    unfold set_out. cbn. f_equal. rewrite <- !app_assoc. reflexivity.
Qed.

(** X12: when the site answers with its ban page, the loop logs the ban
    and then, for each of the [ban_wait] minutes, one notice followed by
    a sleep of 60 seconds, counting down to 1 with [minute] in the
    singular at 1; with [ban_wait] at 0 or below it waits for nothing.
    The counter and everything but the console and the buffer are as
    before. *)
Theorem ban_wait_countdown cfg r count s :
  r_page r = Denied ->
  iteration cfg r count s
  = (Ok count,
     set_out (out (polled s)
              ++ EvLog ("Damn! It looks like you have been"
                        +:+ " banned (probably temporarily)") true Yellow true
              :: countdown (Z.to_nat (ban_wait cfg))) (polled s)).
Proof.
  intros Hpage. unfold iteration, get_pastes. rewrite Hpage.
  unfold bind at 1. unfold bind at 1. unfold Logger.log at 1. unfold emit, ret.
  unfold bind at 1. unfold bind at 1. fold (polled s).
  change (ACCESS_DENIED =? OK)%Z with false.
  change (ACCESS_DENIED =? ACCESS_DENIED)%Z with true. cbv iota.
  unfold bind at 1. unfold Logger.log at 1. unfold emit.
  unfold bind at 1.
  assert (Hsteps : seqZ 0 (ban_wait cfg)
                   = seqZ 0 (Z.of_nat (Z.to_nat (ban_wait cfg)))).
  { unfold seqZ. by rewrite Nat2Z.id. }
  rewrite Hsteps.
  assert (Hrun : forall s0,
             ban_countdown (ban_wait cfg)
               (seqZ 0 (Z.of_nat (Z.to_nat (ban_wait cfg)))) s0
             = (Ok tt,
                set_out (out s0 ++ countdown (Z.to_nat (ban_wait cfg))) s0)).
  { intros s0. destruct (Z.to_nat (ban_wait cfg)) as [|m] eqn:Hm.
    - simpl. unfold ret. rewrite app_nil_r. by destruct s0.
    - replace (ban_wait cfg) with (0 + Z.of_nat (S m))%Z at 1 by lia.
      apply ban_countdown_run. }
  rewrite Hrun. unfold ret. cbn [out set_out]. f_equal.
  unfold set_out. cbn. f_equal. rewrite <- app_assoc. reflexivity.
Qed.

(** X13: when the page cannot be decoded the loop announces a retry in
    [connection_timeout] seconds and sleeps one second, whatever the
    timeout is; with a timeout that is a float the announcement cannot be
    formatted and [ValueError] leaves the loop. *)
Theorem undecodable_page_retries_after_one_second cfg r count s :
  r_page r = Undecodable ->
  iteration cfg r count s
  = match connection_timeout cfg with
    | PyInt t =>
        (Ok count,
         set_out (out (polled s)
                  ++ [EvLog ("Unknown error. Maybe an encoding problem?"
                             +:+ " Trying again in " +:+ pretty t
                             +:+ " seconds .") true Red true;
                      EvSleep (PyInt 1)]) (polled s))
    | PyFloat _ => (Raise (Exception "ValueError"), polled s)
    end.
Proof.
  intros Hpage. unfold iteration, get_pastes. rewrite Hpage.
  unfold bind at 1. unfold bind at 1. unfold Logger.log at 1. unfold emit, ret.
  unfold bind at 1. unfold bind at 1. fold (polled s).
  change (OTHER_ERROR =? OK)%Z with false.
  change (OTHER_ERROR =? ACCESS_DENIED)%Z with false.
  change (OTHER_ERROR =? CONNECTION_FAIL)%Z with false.
  change (OTHER_ERROR =? OTHER_ERROR)%Z with true. cbv iota.
  destruct (connection_timeout cfg) as [t|q]; [| reflexivity].
  unfold format1, format_d, time_sleep, pynum_negative.
  change (1 <? 0)%Z with false.
  unfold bind, ret, emit, Logger.log, emit. cbn [out set_out]. f_equal.
  unfold set_out. cbn. f_equal. rewrite <- app_assoc. reflexivity.
Qed.

(** An integer timeout below zero is announced and then refused by
    [time.sleep]. *)
Lemma iteration_connection_down_negative cfg r count s t :
  r_page r = ConnectionDown ->
  connection_timeout cfg = PyInt t ->
  (t < 0)%Z ->
  iteration cfg r count s
  = (Raise (Exception "ValueError"),
     set_out (out (polled s)
              ++ [EvLog ("Connection down. Waiting " +:+ pretty t
                         +:+ " seconds and trying again") true Red true])
       (polled s)).
Proof.
  intros Hpage Htimeout Ht. unfold iteration, get_pastes. rewrite Hpage.
  unfold bind at 1. unfold bind at 1. unfold Logger.log at 1. unfold emit, ret.
  unfold bind at 1. unfold bind at 1. fold (polled s).
  change (CONNECTION_FAIL =? OK)%Z with false.
  change (CONNECTION_FAIL =? ACCESS_DENIED)%Z with false.
  change (CONNECTION_FAIL =? CONNECTION_FAIL)%Z with true. cbv iota.
  rewrite Htimeout. unfold format1, format_d, time_sleep, pynum_negative.
  assert (Hneg : (t <? 0)%Z = true) by lia. rewrite Hneg.
  unfold bind, ret, raise, emit, Logger.log, emit. reflexivity.
Qed.

(** X19: when the archive cannot be reached and [connection_timeout] is
    an integer, the loop announces the wait and sleeps exactly that many
    seconds, the counter unchanged; a negative integer is announced and
    then refused by the sleep, and [ValueError] leaves the loop. *)
Theorem connection_down_waits cfg r count s t :
  r_page r = ConnectionDown ->
  connection_timeout cfg = PyInt t ->
  iteration cfg r count s
  = let announced :=
      out (polled s)
      ++ [EvLog ("Connection down. Waiting " +:+ pretty t
                 +:+ " seconds and trying again") true Red true] in
    if (t <? 0)%Z
    then (Raise (Exception "ValueError"), set_out announced (polled s))
    else (Ok count, set_out (announced ++ [EvSleep (PyInt t)]) (polled s)).
Proof.
  intros Hpage Htimeout. cbv zeta.
  destruct (t <? 0)%Z eqn:Ht.
  - apply iteration_connection_down_negative; [done | done | lia].
  - rewrite (iteration_connection_down cfg r count s t Hpage Htimeout)
      by lia.
    by rewrite <- app_assoc.
Qed.

(** X14: a poll that does not get the listing changes nothing but the
    console and the buffer of unmatched pastes, which every poll empties:
    the rules, the identifiers, the files and the verbosity flag are as
    before, and when the turn of the loop returns, the counter is as
    before. *)
Theorem failed_poll_keeps_state cfg r count s :
  (forall pastes, r_page r <> Listing pastes) ->
  let run := iteration cfg r count s in
  snd run = set_out (out (snd run)) (polled s)
  /\ pastes_for_save (snd run) = []
  /\ forall c, fst run = Ok c -> c = count.
Proof.
  intros Hpage. cbv zeta.
  assert (Hlogged : forall (res : outcome Z) trace,
             (forall c, res = Ok c -> c = count) ->
             snd (res, set_out trace (polled s))
             = set_out (out (snd (res, set_out trace (polled s)))) (polled s)
             /\ pastes_for_save (snd (res, set_out trace (polled s))) = []
             /\ forall c, fst (res, set_out trace (polled s)) = Ok c ->
                           c = count).
  { intros res trace Hres. split; [reflexivity |].
    split; [reflexivity | exact Hres]. }
  assert (Hsilent : forall (res : outcome Z),
             (forall c, res = Ok c -> c = count) ->
             snd (res, polled s) = set_out (out (snd (res, polled s))) (polled s)
             /\ pastes_for_save (snd (res, polled s)) = []
             /\ forall c, fst (res, polled s) = Ok c -> c = count).
  { intros res Hres. split; [by destruct s |].
    split; [reflexivity | exact Hres]. }
  destruct (r_page r) as [pastes| | |] eqn:Hr.
  - by destruct (Hpage pastes).
  - rewrite (ban_wait_countdown _ _ _ _ Hr).
    apply Hlogged. by intros c [= <-].
  - destruct (connection_timeout cfg) as [t|q] eqn:Htimeout.
    + destruct (Z_lt_le_dec t 0) as [Hneg | Hpos].
      * rewrite (iteration_connection_down_negative _ _ _ _ _ Hr Htimeout Hneg).
        apply Hlogged. discriminate.
      * rewrite (iteration_connection_down _ _ _ _ _ Hr Htimeout Hpos).
        apply Hlogged. by intros c [= <-].
    + rewrite (iteration_connection_down_float _ _ _ _ _ Hr Htimeout).
      apply Hsilent. discriminate.
  - rewrite (undecodable_page_retries_after_one_second _ _ _ _ Hr).
    destruct (connection_timeout cfg) as [t|q].
    + apply Hlogged. by intros c [= <-].
    + apply Hsilent. discriminate.
Qed.

(** ** A row that is not a triple *)

Lemma classify_short_row rows_before row rows_after paste_txt :
  Forall (passes_by re_search paste_txt) rows_before ->
  length row <> 3%nat ->
  classify (rows_before ++ row :: rows_after) paste_txt
  = ClassifyError (Exception "ValueError").
Proof.
  intros Hbefore Hrow.
  induction Hbefore as [|r rest (regex & file & directory & -> & Hno) _ IH].
  - simpl.
    destruct row as [|a [|b [|c [|d more]]]]; try reflexivity.
    by destruct Hrow.
  - simpl. rewrite Hno. exact IH.
Qed.

(** X15: a row of the rules that is not a triple, as a line without a
    comma leaves one, fails every paste that reaches it: the paste is
    reported as a read error and is neither saved nor kept in the buffer,
    and the rules after the row are never tried. *)
Theorem short_row_fails_every_paste rows_before row rows_after e paste_id s
    paste_txt :
  pe_fetch e = Fetched paste_txt ->
  displayable (verbose s) e ->
  regexes s = rows_before ++ row :: rows_after ->
  Forall (passes_by re_search paste_txt) rows_before ->
  length row <> 3%nat ->
  check_paste e paste_id s
  = (Ok false,
     set_out
       (out s ++ EvGet (PASTEBIN_URL +:+ "/raw" +:+ paste_id)
          :: display_lines get_printable_size (verbose s) e paste_txt
          ++ [EvLog "Error reading paste (probably a 404 or encoding issue)."
                true Yellow true]) s).
Proof.
  intros Hfetch Hshow Hrules Hbefore Hrow.
  pose proof (classify_short_row _ _ rows_after _ Hbefore Hrow) as Hclass.
  rewrite <- Hrules in Hclass.
  unfold check_paste, requests_get, show_paste, display_lines. run.
  rewrite Hfetch. simpl.
  destruct (verbose s) eqn:Hv; simpl.
  - rewrite Hclass. simpl. by rewrite <- !app_assoc.
  - destruct Hshow as [? | [description Hmagic]]; [done |].
    rewrite Hmagic. simpl. rewrite Hclass. simpl. by rewrite <- !app_assoc.
Qed.

(** ** The prompt *)

Lemma contains_one_key (c a b : ascii) :
  PyStr.contains (String c EmptyString)
    (String a (String b EmptyString))
  = Ascii.eqb c a || Ascii.eqb c b.
Proof.
  change (PyStr.contains (String c EmptyString)
            (String a (String b EmptyString)))
    with ((if ascii_dec c a then true else false)
          || ((if ascii_dec c b then true else false) || (false || false))).
  destruct (ascii_dec c a) as [Hca | Hca], (ascii_dec c b) as [Hcb | Hcb].
  - subst. by rewrite Ascii.eqb_refl.
  - subst. by rewrite Ascii.eqb_refl.
  - subst. rewrite Ascii.eqb_refl. simpl. by destruct (Ascii.eqb b a).
  - apply Ascii.eqb_neq in Hca, Hcb. by rewrite Hca, Hcb.
Qed.

Lemma contains_key (key : string) (a b : ascii) :
  (String.length key <= 1)%nat ->
  PyStr.contains key (String a (String b EmptyString)) = answers a b key.
Proof.
  destruct key as [|c [|d more]]; simpl String.length; intros Hlen.
  - reflexivity.
  - apply contains_one_key.
  - lia.
Qed.

(** X16: at the prompt of the interrupt handler, with nothing in the
    buffer, the key decides: [v] or [V] flips the verbosity flag, [q] or
    [Q] lets the interrupt go on to end the crawler, any other key does
    neither; when nothing can be read (the key is the empty string) both
    happen. The counter is the one before the interrupted paste. *)
Theorem prompt_answers e count s :
  (String.length (pe_key e) <= 1)%nat ->
  pastes_for_save s = [] ->
  interrupted e count s
  = (if answers "q" "Q" (pe_key e) then Raise KeyboardInterrupt else Ok count,
     (if answers "v" "V" (pe_key e)
      then set_verbose (negb (verbose s)) else id) (prompted s)).
Proof.
  intros Hkey Hempty. unfold interrupted.
  unfold bind at 1. unfold bind at 1. unfold Logger.log, emit.
  unfold bind at 1. unfold bind at 1.
  match goal with
  | |- context [set_out ?t (set_out ?u s)] =>
      assert (Hprompt : set_out t (set_out u s) = prompted s)
        by (unfold prompted, set_out; simpl; by rewrite <- app_assoc);
      rewrite Hprompt
  end.
  rewrite !(contains_key _ _ _ Hkey).
  assert (Hsaved : (if answers "s" "S" (pe_key e)
                    then save_last_pastes (pe_save_now e) else ret tt)
                     (prompted s) = (Ok tt, prompted s)).
  { destruct (answers "s" "S" (pe_key e)); [| reflexivity].
    unfold save_last_pastes, bind. cbn [pastes_for_save prompted set_out].
    rewrite Hempty. simpl. unfold ret. f_equal.
    unfold set_pastes_for_save, prompted, set_out. simpl. by rewrite Hempty. }
  rewrite Hsaved.
  destruct (answers "v" "V" (pe_key e)), (answers "q" "Q" (pe_key e));
    reflexivity.
Qed.

(** ** The module body *)

(** X17: without a readable rule file the crawler ends at once: one
    error line is logged, [SystemExit] leaves the module, and no poll,
    request or sleep takes place, whatever the options. *)
Theorem unreadable_rules_end_the_crawler cfg rounds s :
  fs_files (fs s) !! REGEXES_FILE = None ->
  main re_search get_printable_size cfg rounds s
  = (Raise SystemExit,
     set_out (out s ++ [EvLog (REGEXES_FILE +:+ " not found or not acessible.")
                          true Red true]) s).
Proof.
  intros Hfile. unfold main, on_interrupt. unfold bind at 1.
  by rewrite (read_regexes_unreadable _ Hfile).
Qed.

(** X18: with the rules loaded, when [KeyboardInterrupt] leaves [start]
    the module logs its farewell and ends normally; any other exception
    leaves the module as it is, without the farewell. *)
Theorem quit_says_bye cfg rounds s s0 x s1 :
  read_regexes s = (Ok tt, s0) ->
  start cfg rounds s0 = (Raise x, s1) ->
  main re_search get_printable_size cfg rounds s
  = match x with
    | KeyboardInterrupt =>
        (Ok tt,
         set_out (out s1
                  ++ [EvLog "Bye! Hope you found what you were looking for :)"
                        true NoColor true]) s1)
    | _ => (Raise x, s1)
    end.
Proof.
  intros Hread Hstart. unfold main, on_interrupt.
  unfold bind at 1. rewrite Hread. unfold bind at 1. rewrite Hstart.
  by destruct x.
Qed.

(** ** From one cycle to the next *)

(** X20: an identifier listed in a cycle that reached its end is not
    requested in the cycle that follows, whether or not the first cycle
    ended with a flush. *)
Theorem no_request_in_the_next_cycle cfg r1 count s c1 s1 pastes1 pastes2
    c2 s2 :
  r_page r1 = Listing pastes1 ->
  iteration cfg r1 count s = (Ok c1, s1) ->
  for_pastes cfg pastes2 c1 (polled s1) = (Ok c2, s2) ->
  exists delta,
    out s2 = out (polled s1) ++ delta
    /\ forall paste_id,
         paste_id ∈ map fst pastes1 -> fetches paste_id delta = 0%nat.
Proof.
  intros Hpage Hfirst Hsecond.
  rewrite (iteration_listing _ _ _ _ _ Hpage) in Hfirst.
  destruct (for_pastes cfg pastes1 count (polled s)) as [[c_end|x] s_mid]
    eqn:Hfor; [| discriminate].
  injection Hfirst as _ <-.
  apply for_pastes_frame in Hfor as (_ & _ & Hlisted & _).
  destruct (Hlisted _ eq_refl) as (Hnew & _).
  apply for_pastes_frame in Hsecond as (_ & _ & Hlisted2 & _).
  destruct (Hlisted2 _ eq_refl) as (_ & delta & Hout & Hfetches).
  exists delta. split; [exact Hout |].
  intros paste_id Hin. rewrite Hfetches.
  assert (Hseen : is_new (polled (set_out (out s_mid
                                           ++ refresh_wait cfg (r_elapsed r1))
                                    (committed cfg c_end s_mid))) paste_id
                  = false).
  { unfold is_new, committed. simpl.
    rewrite bool_decide_eq_true_2; [reflexivity |].
    rewrite Hnew. destruct (flush_due cfg c_end); rewrite !elem_of_app; auto. }
  by rewrite Hseen.
Qed.

End CrawlerFacts.

(** * The claims at concrete inputs *)

(** C2: a rule file whose lines have two fields and one field is loaded
    without an error: the rows come out with an empty pattern, and the
    crawler goes on to poll, where the empty pattern matches the first
    paste it sees. *)
Theorem C2_short_lines_are_loaded :
  let s := initial_state (rules_only ("a,b" +:+ LF +:+ "foo" +:+ LF)) in
  let run := main Example.literal_search Example.printable_size
               Example.defaults [Example.listing ["/x1"]] s in
  read_regexes s
  = (Ok tt, set_regexes [[EmptyString; "a"; "b"]; [EmptyString; "foo"]] s)
  /\ fst run = Ok tt
  /\ out (snd run)
     = [EvLog "Getting pastes" true NoColor true;
        EvGet "http://pastebin.com/raw/x1";
        EvLog "ASCII text [11 B]" false Blue false;
        EvLog "normal text" false Yellow false;
        EvLog "Found a matching paste: http://pastebin.com/raw/x1 (a)" true
          Cyan true;
        EvSleep (PyFloat 3);
        EvLog "Waiting 30 seconds to refresh..." true NoColor true;
        EvSleep (PyInt 30)].
Proof. vm_compute. repeat split; reflexivity. Qed.

(** C6: with [-c 5] on the command line [connection_timeout] is the float
    5.0; when the archive cannot be reached the message of the wait
    cannot be formatted, [ValueError] leaves [start] and the module: the
    crawler has logged the poll and nothing else, it has not slept and
    does not poll again. *)
Theorem C6_float_timeout_ends_the_crawler :
  let s := initial_state (rules_only "token,tokens.txt,found") in
  let run := main Example.literal_search Example.printable_size
               (Example.with_timeout (PyFloat 5))
               [Example.unreachable_archive; Example.listing ["/x1"]] s in
  fst run = Raise (Exception "ValueError")
  /\ out (snd run) = [EvLog "Getting pastes" true NoColor true].
Proof. vm_compute. split; reflexivity. Qed.

(** The claim C1 as it is stated fails where every cycle lists one
    paste, so that the counter counts cycles: with a flush horizon of 3
    the third cycle ends with a flush that keeps its own listing only.
    The identifier recorded in cycle 2 is then new again, where the claim
    has it not-new in cycles 3 and 4, and when cycle 4 lists it again it
    is requested a second time. *)
Lemma C1_counterexample :
  let three_cycles :=
    [Example.listing ["/a"]; Example.listing ["/b"]; Example.listing ["/c"]] in
  let after_three :=
    start Example.literal_search Example.printable_size
      (Example.with_flush 3) three_cycles
      (initial_state Example.nothing_on_disk) in
  let after_four :=
    start Example.literal_search Example.printable_size
      (Example.with_flush 3) (three_cycles ++ [Example.listing ["/b"]])
      (initial_state Example.nothing_on_disk) in
  fst after_three = Ok 0%Z
  /\ prev_checked_ids (snd after_three) = ["/c"]
  /\ is_new (snd after_three) "/b" = true
  /\ fetches "/b" (out (snd after_four)) = 2%nat.
Proof. vm_compute. repeat split; reflexivity. Qed.

(** The claim C3 as it is stated fails for a rule set with a pattern
    the engine does not compile: with the rules [(] and [token], in that
    order, the first rule whose pattern is found in the body is the
    second one, but the search for the first raises [re.error], which
    [check_paste] takes for a read error; the paste is reported unread,
    the second rule is never tried and nothing is saved. *)
Lemma C3_counterexample :
  let rules := [("(", "broken.txt", "broken");
                ("token", "tokens.txt", "found")] in
  let run :=
    check_paste Example.literal_search Example.printable_size
      (Example.served Example.secret) "/x1"
      (set_regexes (map rule_row rules)
         (initial_state Example.nothing_on_disk)) in
  first_match Example.literal_search rules Example.secret
  = Some ("token", "tokens.txt", "found")
  /\ classify Example.literal_search (map rule_row rules) Example.secret
     = ClassifyError (Exception "re.error")
  /\ fst run = Ok false
  /\ fs (snd run) = Example.nothing_on_disk
  /\ pastes_for_save (snd run) = [].
Proof. vm_compute. repeat split; reflexivity. Qed.

(** The claim C8 as it is stated fails when the paste cannot be
    displayed: in silent mode the paste is matched and saved, otherwise
    the failure of the display is taken for a read error and the paste is
    neither classified nor saved. *)
Lemma C8_counterexample :
  let silent_run :=
    check_paste Example.literal_search Example.printable_size
      (Example.undisplayable Example.secret) "/x1"
      (set_verbose true Example.ready) in
  let shown_run :=
    check_paste Example.literal_search Example.printable_size
      (Example.undisplayable Example.secret) "/x1"
      (set_verbose false Example.ready) in
  fst silent_run = Ok true
  /\ fst shown_run = Ok false
  /\ file_text (fs (snd silent_run)) "archive/tokens.txt"
     = "2020/01/02 03:04:05 - http://pastebin.com/raw/x1" +:+ LF
  /\ file_text (fs (snd shown_run)) "archive/tokens.txt" = EmptyString.
Proof. vm_compute. repeat split; reflexivity. Qed.

(** ** Witnesses *)

Lemma C1_witness :
  exists c_end s_mid,
    for_pastes Example.literal_search Example.printable_size
      (Example.with_flush 2) (map (fun i => (i, Example.served "normal text"))
                                ["/a"; "/b"])
      0%Z (polled (initial_state Example.nothing_on_disk))
    = (Ok c_end, s_mid)
    /\ flush_due (Example.with_flush 2) c_end = true.
Proof.
  destruct (C1_seen_until_flush Example.literal_search Example.printable_size
              (Example.with_flush 2) (Example.listing ["/a"; "/b"]) 0%Z
              (initial_state Example.nothing_on_disk)
              (map (fun i => (i, Example.served "normal text")) ["/a"; "/b"])
              0%Z
              (snd (iteration Example.literal_search Example.printable_size
                      (Example.with_flush 2) (Example.listing ["/a"; "/b"])
                      0%Z (initial_state Example.nothing_on_disk)))
              eq_refl eq_refl)
    as (c_end & s_mid & Hfor & _).
  - vm_compute. reflexivity.
  - exists c_end, s_mid. split; [exact Hfor |].
    vm_compute in Hfor. injection Hfor as <- _. reflexivity.
Defined.

Lemma C3_witness :
  classify Example.literal_search
    (map rule_row [("token", "tokens.txt", "found")]) Example.secret
  = classification_of
      (first_match Example.literal_search [("token", "tokens.txt", "found")]
         Example.secret)
  /\ forall other,
       PyStr.take 1024 other = PyStr.take 1024 Example.secret ->
       classify Example.literal_search
         (map rule_row [("token", "tokens.txt", "found")]) other
       = classify Example.literal_search
           (map rule_row [("token", "tokens.txt", "found")]) Example.secret.
Proof.
  apply (C3_first_match_in_prefix Example.literal_search).
  repeat constructor. vm_compute. discriminate.
Defined.


Lemma C7_witness :
  exists c' s',
    iteration Example.literal_search Example.printable_size Example.defaults
      {| r_page := Listing Example.one_failure; r_elapsed := 0 |} 0%Z
      Example.ready
    = (Ok c', s')
    /\ forall paste_id,
         paste_id ∈ map fst Example.one_failure -> is_new s' paste_id = false.
Proof.
  refine (proj2
    (C7_fetch_failure_not_fatal Example.literal_search Example.printable_size
       Example.defaults
       {| r_page := Listing Example.one_failure; r_elapsed := 0 |} 0%Z
       Example.ready Example.one_failure eq_refl _ eq_refl)).
  repeat constructor; discriminate.
Defined.

Lemma C8_witness :
  fst (check_paste Example.literal_search Example.printable_size
         (Example.served Example.secret) "/x1"
         (set_verbose true Example.ready))
  = fst (check_paste Example.literal_search Example.printable_size
           (Example.served Example.secret) "/x1"
           (set_verbose false Example.ready)).
Proof.
  refine (proj1
    (C8_verbosity_only_display Example.literal_search Example.printable_size
       (Example.served Example.secret) "/x1" Example.ready _)).
  eexists. reflexivity.
Defined.

Lemma C9_witness :
  exists s' delta,
    for_pastes Example.literal_search Example.printable_size Example.defaults
      [("/x1", Example.served Example.secret);
       ("/x1", Example.served Example.secret)] 0%Z Example.ready
    = (Ok 2%Z, s')
    /\ out s' = out Example.ready ++ delta
    /\ fetches "/x1" delta = 2%nat
    /\ new_checked_ids s' = new_checked_ids Example.ready ++ ["/x1"; "/x1"]
    /\ fs s' = fs Example.saved_twice
    /\ file_text (fs s') (audit_path "tokens.txt")
       = file_text (fs Example.ready) (audit_path "tokens.txt")
         +:+ audit_line Example.noon Example.secret_url
         +:+ audit_line Example.noon Example.secret_url.
Proof.
  refine (C9_listed_twice_processed_twice Example.literal_search
            Example.printable_size Example.defaults "/x1"
            (Example.served Example.secret) (Example.served Example.secret)
            Example.secret Example.secret "token" "tokens.txt" "found" 0%Z
            Example.ready (fs Example.saved_once) (fs Example.saved_twice)
            _ _ _ _ _ _ _ _ _ _ _ _ _ _).
  all: try (vm_compute; reflexivity).
  all: try (right; eexists; reflexivity).
  all: vm_compute; discriminate.
Defined.

Lemma C10_witness :
  exists s',
    check_paste Example.literal_search Example.printable_size
      (Example.served Example.secret) "/x1" Example.blocked
    = (Ok false, s')
    /\ save_result Example.noon Example.secret_url "/x1" "tokens.txt" "found"
         Example.secret Example.blocked
       = (Raise (Exception "OSError"), set_fs (fs s') Example.blocked)
    /\ file_text (fs s') (audit_path "tokens.txt")
       = file_text (fs Example.blocked) (audit_path "tokens.txt")
         +:+ audit_line Example.noon Example.secret_url
    /\ fs_files (fs s') !! content_path Example.noon "found" "/x1"
       = fs_files (fs Example.blocked) !! content_path Example.noon "found"
                                            "/x1"
    /\ pastes_for_save s' = pastes_for_save Example.blocked.
Proof.
  refine (C10_audit_line_survives_failed_save Example.literal_search
            Example.printable_size (Example.served Example.secret) "/x1"
            Example.blocked Example.secret "token" "tokens.txt" "found"
            _ _ _ _ _).
  - reflexivity.
  - right. eexists. reflexivity.
  - vm_compute. reflexivity.
  - vm_compute. reflexivity.
  - vm_compute. reflexivity.
Defined.

(** ** Witnesses of the further properties *)

Lemma embedded_commas_kept_witness :
  parse_regexes ("pass(word)?,key,leaks.txt,dir3" +:+ LF
                 +:+ "token,tokens.txt,found")
  = ["pass(word)?,key"; "leaks.txt"; "dir3"]
    :: parse_regexes "token,tokens.txt,found"
  /\ parse_regexes "pass(word)?,key,leaks.txt,dir3"
     = [["pass(word)?,key"; "leaks.txt"; "dir3"]].
Proof.
  apply (embedded_commas_kept "pass(word)?,key" "leaks.txt" "dir3"
           "token,tokens.txt,found"); try reflexivity.
  repeat constructor.
Defined.

Lemma comment_and_blank_lines_skipped_witness :
  parse_regexes ("# patterns" +:+ LF +:+ "token,tokens.txt,found")
  = parse_regexes "token,tokens.txt,found"
  /\ parse_regexes ("   " +:+ LF +:+ "token,tokens.txt,found")
     = parse_regexes "token,tokens.txt,found".
Proof.
  split.
  - apply comment_and_blank_lines_skipped; [reflexivity |].
    left. reflexivity.
  - apply comment_and_blank_lines_skipped; [reflexivity |].
    right. reflexivity.
Defined.


Lemma requests_of_a_cycle_witness :
  exists delta,
    out (snd (for_pastes Example.literal_search Example.printable_size
                Example.defaults
                [("/x1", Example.served Example.secret);
                 ("/x2", Example.served "normal text");
                 ("/x1", Example.served Example.secret)] 0%Z
                (set_prev_checked_ids ["/x2"] Example.ready)))
    = out (set_prev_checked_ids ["/x2"] Example.ready) ++ delta
    /\ forall paste_id,
         fetches paste_id delta
         = if is_new (set_prev_checked_ids ["/x2"] Example.ready) paste_id
           then occurrences paste_id ["/x1"; "/x2"; "/x1"]
           else 0%nat.
Proof.
  apply (requests_of_a_cycle Example.literal_search Example.printable_size
           Example.defaults
           [("/x1", Example.served Example.secret);
            ("/x2", Example.served "normal text");
            ("/x1", Example.served Example.secret)] 0%Z
           (set_prev_checked_ids ["/x2"] Example.ready) 3%Z).
  vm_compute. reflexivity.
Defined.

Lemma counter_counts_listed_pastes_witness :
  fst (for_pastes Example.literal_search Example.printable_size
         (Example.with_flush 2) Example.one_failure 0%Z Example.ready)
  = Ok 2%Z
  /\ fst (iteration Example.literal_search Example.printable_size
            (Example.with_flush 2)
            {| r_page := Listing Example.one_failure; r_elapsed := 0 |} 0%Z
            Example.ready)
     = Ok 0%Z.
Proof.
  apply (counter_counts_listed_pastes Example.literal_search
           Example.printable_size (Example.with_flush 2)
           {| r_page := Listing Example.one_failure; r_elapsed := 0 |}
           Example.one_failure 0%Z Example.ready eq_refl).
  - repeat constructor; discriminate.
  - reflexivity.
Defined.

Lemma ban_wait_countdown_witness :
  iteration Example.literal_search Example.printable_size
    (Example.with_ban_wait 2) Scenario.banned 7%Z Example.ready
  = (Ok 7%Z,
     set_out
       [EvLog "Getting pastes" true NoColor true;
        EvLog "Damn! It looks like you have been banned (probably temporarily)"
          true Yellow true;
        EvLog "Please wait 2 minutes" false NoColor true;
        EvSleep (PyInt 60);
        EvLog "Please wait 1 minute" false NoColor true;
        EvSleep (PyInt 60)] (polled Example.ready)).
Proof.
  exact (ban_wait_countdown Example.literal_search Example.printable_size
           (Example.with_ban_wait 2) Scenario.banned 7%Z Example.ready
           eq_refl).
Defined.

Lemma undecodable_page_retries_after_one_second_witness :
  iteration Example.literal_search Example.printable_size
    (Example.with_timeout (PyInt 60)) Scenario.undecodable 7%Z Example.ready
  = (Ok 7%Z,
     set_out
       [EvLog "Getting pastes" true NoColor true;
        EvLog "Unknown error. Maybe an encoding problem? Trying again in 60 seconds ."
          true Red true;
        EvSleep (PyInt 1)] (polled Example.ready)).
Proof.
  exact (undecodable_page_retries_after_one_second Example.literal_search
           Example.printable_size (Example.with_timeout (PyInt 60))
           Scenario.undecodable 7%Z Example.ready eq_refl).
Defined.

Lemma connection_down_waits_witness :
  iteration Example.literal_search Example.printable_size
    (Example.with_timeout (PyInt 5)) Example.unreachable_archive 7%Z
    Example.ready
  = (Ok 7%Z,
     set_out
       [EvLog "Getting pastes" true NoColor true;
        EvLog "Connection down. Waiting 5 seconds and trying again" true Red
          true;
        EvSleep (PyInt 5)] (polled Example.ready)).
Proof.
  exact (connection_down_waits Example.literal_search
           Example.printable_size (Example.with_timeout (PyInt 5))
           Example.unreachable_archive 7%Z Example.ready 5%Z eq_refl eq_refl).
Defined.

Lemma failed_poll_keeps_state_witness :
  pastes_for_save
    (snd (iteration Example.literal_search Example.printable_size
            Example.defaults Scenario.banned 7%Z Scenario.two_buffered))
  = []
  /\ forall c,
       fst (iteration Example.literal_search Example.printable_size
              Example.defaults Scenario.banned 7%Z Scenario.two_buffered)
       = Ok c ->
       c = 7%Z.
Proof.
  refine (proj2
    (failed_poll_keeps_state Example.literal_search Example.printable_size
       Example.defaults Scenario.banned 7%Z Scenario.two_buffered _)).
  intros pastes. discriminate.
Defined.

Lemma short_row_fails_every_paste_witness :
  fst (check_paste Example.literal_search Example.printable_size
         (Example.served Example.secret) "/x1" Scenario.short_row_first)
  = Ok false
  /\ fs (snd (check_paste Example.literal_search Example.printable_size
                (Example.served Example.secret) "/x1"
                Scenario.short_row_first))
     = fs Scenario.short_row_first.
Proof.
  rewrite (short_row_fails_every_paste Example.literal_search
             Example.printable_size [] [EmptyString; "foo"]
             [["token"; "tokens.txt"; "found"]]
             (Example.served Example.secret) "/x1" Scenario.short_row_first
             Example.secret eq_refl).
  - split; reflexivity.
  - right. eexists. reflexivity.
  - vm_compute. reflexivity.
  - constructor.
  - discriminate.
Defined.

Lemma prompt_answers_witness :
  interrupted (Scenario.interrupted_with "v") 7%Z Example.ready
  = (Ok 7%Z, set_verbose true (prompted Example.ready))
  /\ interrupted (Scenario.interrupted_with "q") 7%Z Example.ready
     = (Raise KeyboardInterrupt, prompted Example.ready)
  /\ interrupted (Scenario.interrupted_with EmptyString) 7%Z Example.ready
     = (Raise KeyboardInterrupt, set_verbose true (prompted Example.ready)).
Proof.
  split; [| split].
  - refine (prompt_answers (Scenario.interrupted_with "v") 7%Z Example.ready
              _ _); [simpl; lia | reflexivity].
  - refine (prompt_answers (Scenario.interrupted_with "q") 7%Z Example.ready
              _ _); [simpl; lia | reflexivity].
  - refine (prompt_answers (Scenario.interrupted_with EmptyString) 7%Z
              Example.ready _ _); [simpl; lia | reflexivity].
Defined.

Lemma unreadable_rules_end_the_crawler_witness :
  main Example.literal_search Example.printable_size Example.defaults
    [Example.listing ["/x1"]] (initial_state Example.nothing_on_disk)
  = (Raise SystemExit,
     set_out [EvLog "regexes.txt not found or not acessible." true Red true]
       (initial_state Example.nothing_on_disk)).
Proof.
  exact (unreadable_rules_end_the_crawler Example.literal_search
           Example.printable_size Example.defaults [Example.listing ["/x1"]]
           (initial_state Example.nothing_on_disk) eq_refl).
Defined.

Lemma quit_says_bye_witness :
  fst (main Example.literal_search Example.printable_size Example.defaults
         Scenario.quit_at_once
         (initial_state (rules_only "token,tokens.txt,found")))
  = Ok tt.
Proof.
  rewrite (quit_says_bye Example.literal_search Example.printable_size
             Example.defaults Scenario.quit_at_once
             (initial_state (rules_only "token,tokens.txt,found"))
             (snd (read_regexes
                     (initial_state (rules_only "token,tokens.txt,found"))))
             KeyboardInterrupt
             (snd (start Example.literal_search Example.printable_size
                     Example.defaults Scenario.quit_at_once
                     (snd (read_regexes
                             (initial_state
                                (rules_only "token,tokens.txt,found"))))))).
  - reflexivity.
  - vm_compute. reflexivity.
  - vm_compute. reflexivity.
Defined.

Lemma no_request_in_the_next_cycle_witness :
  let first_cycle :=
    iteration Example.literal_search Example.printable_size
      (Example.with_flush 2) (Example.listing ["/a"; "/b"]) 0%Z
      Example.ready in
  let second_listing :=
    for_pastes Example.literal_search Example.printable_size
      (Example.with_flush 2) [("/a", Example.served "normal text")] 0%Z
      (polled (snd first_cycle)) in
  exists delta,
    out (snd second_listing) = out (polled (snd first_cycle)) ++ delta
    /\ forall paste_id,
         paste_id ∈ ["/a"; "/b"] -> fetches paste_id delta = 0%nat.
Proof.
  cbv zeta.
  refine (no_request_in_the_next_cycle Example.literal_search
            Example.printable_size (Example.with_flush 2)
            (Example.listing ["/a"; "/b"]) 0%Z Example.ready 0%Z _
            (map (fun i => (i, Example.served "normal text")) ["/a"; "/b"])
            [("/a", Example.served "normal text")] 1%Z _ eq_refl _ _).
  - vm_compute. reflexivity.
  - vm_compute. reflexivity.
Defined.
